(** * ai-thumbnail-generator: the thumbnail controllers

    A shallow embedding of [server/controllers/ThumbnailController.ts]
    (the multi-model HTTP fallback controller) and of its single-model
    SDK sibling, with the properties of the prompt composer, the response
    classifier, the model fallback loop, the generation handler and the
    delete handler.

    Conventions.  A JavaScript string is modelled by the bytes of its
    UTF-8 encoding (a Rocq [string]); a [Buffer] is the same byte
    sequence, and [buffer.toString("utf8")] is the identity on it.  The
    collaborators the controller awaits (the document store, the HTTP
    client, the image CDN, the clock) are the fields of a [World]; the
    platform built-ins the controller relies on ([JSON.parse], the
    properties every object literal inherits) are the fields of a
    [Platform].  Console output is not modelled. *)

From Stdlib Require Import String Ascii List ZArith QArith Bool Lia.
From Stdlib Require Import DecimalString.
Import ListNotations.
Open Scope string_scope.
Open Scope Z_scope.

Set Implicit Arguments.
Set Warnings "-register-all".


(* ================================================================== *)
(** * JavaScript strings and values *)
(* ================================================================== *)

Module JS.

(** The double quote, as a one-character string and as a character. *)
Definition dquote_char : ascii := ascii_of_nat 34%nat.
Definition dquote : string := String dquote_char EmptyString.

Definition byte (n : nat) : ascii := ascii_of_nat n.

Fixpoint bytes (l : list nat) : string :=
  match l with
  | [] => EmptyString
  | n :: r => String (byte n) (bytes r)
  end.

(** [s.startsWith(p)] *)
Fixpoint startsWith (p s : string) : bool :=
  match p, s with
  | EmptyString, _ => true
  | String a p', String b s' => if Ascii.eqb a b then startsWith p' s' else false
  | String _ _, EmptyString => false
  end.

(** [s.includes(p)] *)
Fixpoint includes (p s : string) : bool :=
  if startsWith p s then true
  else match s with
       | EmptyString => false
       | String _ s' => includes p s'
       end.

Fixpoint drop (n : nat) (s : string) : string :=
  match n, s with
  | O, _ => s
  | S n', String _ s' => drop n' s'
  | S _, EmptyString => EmptyString
  end.

Fixpoint rev_onto (s acc : string) : string :=
  match s with
  | EmptyString => acc
  | String a s' => rev_onto s' (String a acc)
  end.

Definition rev (s : string) : string := rev_onto s EmptyString.

(** [s.toLowerCase()] on the ASCII letters; the bytes of the other
    characters are kept. *)
Definition lower_char (c : ascii) : ascii :=
  let n := nat_of_ascii c in
  if (Nat.leb 65 n && Nat.leb n 90)%bool then ascii_of_nat (n + 32)%nat else c.

Fixpoint toLowerCase (s : string) : string :=
  match s with
  | EmptyString => EmptyString
  | String c s' => String (lower_char c) (toLowerCase s')
  end.

(** The white space and line terminators [String.prototype.trim]
    removes, each as its UTF-8 byte sequence: U+0009..U+000D, U+0020,
    U+00A0, U+1680, U+2000..U+200A, U+2028, U+2029, U+202F, U+205F,
    U+3000 and U+FEFF. *)
Definition whitespace : list string :=
  map bytes
    ([ [9]; [10]; [11]; [12]; [13]; [32];
      [194; 160];
      [225; 154; 128];
      [226; 128; 128]; [226; 128; 129]; [226; 128; 130]; [226; 128; 131];
      [226; 128; 132]; [226; 128; 133]; [226; 128; 134]; [226; 128; 135];
      [226; 128; 136]; [226; 128; 137]; [226; 128; 138];
      [226; 128; 168]; [226; 128; 169]; [226; 128; 175];
      [226; 129; 159];
      [227; 128; 128];
      [239; 187; 191] ])%nat.

(** The length of the white-space character [s] starts with, if any. *)
Fixpoint leading_ws (ws : list string) (s : string) : option nat :=
  match ws with
  | [] => None
  | w :: r => if startsWith w s then Some (String.length w) else leading_ws r s
  end.

Fixpoint trimStart_fuel (fuel : nat) (ws : list string) (s : string) : string :=
  match fuel with
  | O => s
  | S f =>
      match leading_ws ws s with
      | Some n => trimStart_fuel f ws (drop n s)
      | None => s
      end
  end.

Definition trimStart (s : string) : string :=
  trimStart_fuel (String.length s) whitespace s.

Definition trimEnd (s : string) : string :=
  rev (trimStart_fuel (String.length s) (map rev whitespace) (rev s)).

(** [s.trim()] *)
Definition trim (s : string) : string := trimEnd (trimStart s).

(** The value [JSON.parse] returns.  An object keeps its members in
    source order; a later member of the same name shadows an earlier
    one. *)
Inductive JSON : Type :=
| JNull
| JBool (b : bool)
| JNumber (q : Q)
| JString (s : string)
| JArray (items : list JSON)
| JObject (members : list (string * JSON)).

(** ToBoolean on a parsed value. *)
Definition truthy (v : JSON) : bool :=
  match v with
  | JNull => false
  | JBool b => b
  | JNumber q => negb (Qeq_bool q 0)
  | JString s => negb (String.eqb s "")
  | JArray _ => true
  | JObject _ => true
  end.

Fixpoint last_member (k : string) (ms : list (string * JSON)) (found : option JSON)
  : option JSON :=
  match ms with
  | [] => found
  | (k', v) :: r =>
      last_member k r (if String.eqb k k' then Some v else found)
  end.

(** [v.k] for [k] one of [error], [detail], [message], none of which
    an array or [Object.prototype] has: [None] is [undefined]. *)
Definition prop (k : string) (v : JSON) : option JSON :=
  match v with
  | JObject ms => last_member k ms None
  | _ => None
  end.

(** ToBoolean of [v.k]. *)
Definition prop_truthy (k : string) (v : JSON) : bool :=
  match prop k v with
  | Some x => truthy x
  | None => false
  end.

(** ToBoolean of a string that may be [undefined] or [null]. *)
Definition truthy_str (o : option string) : bool :=
  match o with
  | Some s => negb (String.eqb s "")
  | None => false
  end.

(** The decimal text of an integer, as a template literal prints it. *)
Definition show_Z (z : Z) : string := NilZero.string_of_int (Z.to_int z).

End JS.


(* ================================================================== *)
(** * A reference [JSON.parse] *)
(* ================================================================== *)

(** A recursive-descent reader of JSON texts, used to run the controller
    on concrete payloads.  It covers objects, arrays, strings with the
    two-character escapes, numbers, [true], [false] and [null]; a text
    with a [\u] escape is outside it.  The properties below are stated
    for an arbitrary [JSON.parse]. *)
Module Json.
Import JS.

Definition is_ws (c : ascii) : bool :=
  let n := nat_of_ascii c in
  (Nat.eqb n 32 || Nat.eqb n 9 || Nat.eqb n 10 || Nat.eqb n 13)%bool.

Fixpoint skip_ws (s : string) : string :=
  match s with
  | String c r => if is_ws c then skip_ws r else s
  | EmptyString => s
  end.

Definition digit (c : ascii) : option Z :=
  let n := nat_of_ascii c in
  if (Nat.leb 48 n && Nat.leb n 57)%bool then Some (Z.of_nat (n - 48)) else None.

(** The digits [s] starts with: their value after [acc], how many there
    are, and the rest. *)
Fixpoint digits (s : string) (acc : Z) (count : nat) : Z * nat * string :=
  match s with
  | String c r =>
      match digit c with
      | Some d => digits r (10 * acc + d) (S count)
      | None => (acc, count, s)
      end
  | EmptyString => (acc, count, s)
  end.

(** [m * 10 ^ e] *)
Definition scaled (m e : Z) : Q :=
  if 0 <=? e then inject_Z (m * 10 ^ e)
  else Qmake m (Z.to_pos (10 ^ (- e))).

(** The exponent part, if [s] starts with one. *)
Definition exponent (s : string) : option (Z * string) :=
  match s with
  | String c r =>
      if (Ascii.eqb c "e" || Ascii.eqb c "E")%bool then
        let '(sign, r1) :=
          match r with
          | String "-" r' => (-1, r')
          | String "+" r' => (1, r')
          | _ => (1, r)
          end in
        match digits r1 0 0 with
        | (_, O, _) => None
        | (e, S _, r2) => Some (sign * e, r2)
        end
      else Some (0, s)
  | EmptyString => Some (0, s)
  end.

(** A number: an optional minus, an integer part with no superfluous
    leading zero, an optional fraction, an optional exponent. *)
Definition number (s : string) : option (Q * string) :=
  let '(sign, s1) :=
    match s with
    | String "-" r => (-1, r)
    | _ => (1, s)
    end in
  match s1 with
  | String c _ =>
      match digits s1 0 0 with
      | (_, O, _) => None
      | (i, S k, r) =>
          if (Ascii.eqb c "0" && negb (Nat.eqb k 0))%bool then None
          else
            let frac :=
              match r with
              | String "." r' =>
                  match digits r' i 0 with
                  | (_, O, _) => None
                  | (m, S j, r2) => Some (m, Z.of_nat (S j), r2)
                  end
              | _ => Some (i, 0, r)
              end in
            match frac with
            | Some (m, places, r2) =>
                match exponent r2 with
                | Some (e, r3) => Some (scaled (sign * m) (e - places), r3)
                | None => None
                end
            | None => None
            end
      end
  | EmptyString => None
  end.

(** The character a two-character escape stands for. *)
Definition unescape (c : ascii) : option ascii :=
  let n := nat_of_ascii c in
  if Nat.eqb n 34 then Some c
  else if Nat.eqb n 92 then Some c
  else if Nat.eqb n 47 then Some c
  else if Ascii.eqb c "b" then Some (byte 8)
  else if Ascii.eqb c "f" then Some (byte 12)
  else if Ascii.eqb c "n" then Some (byte 10)
  else if Ascii.eqb c "r" then Some (byte 13)
  else if Ascii.eqb c "t" then Some (byte 9)
  else None.

(** The characters of a string up to its closing quote, after the
    opening one; [acc] holds what was read, last character first. *)
Fixpoint chars (s : string) (acc : string) : option (string * string) :=
  match s with
  | EmptyString => None
  | String c r =>
      let n := nat_of_ascii c in
      if Nat.eqb n 34 then Some (rev acc, r)
      else if Nat.ltb n 32 then None
      else if Nat.eqb n 92 then
        match r with
        | String e r' =>
            match unescape e with
            | Some x => chars r' (String x acc)
            | None => None
            end
        | EmptyString => None
        end
      else chars r (String c acc)
  end.

(** A value, the elements of an array after its bracket, the members of
    an object after its brace.  Two nested calls consume a character at
    least, so a fuel of twice the text's length is enough. *)
Fixpoint value (fuel : nat) (s : string) {struct fuel} : option (JSON * string) :=
  match fuel with
  | O => None
  | S f =>
      match skip_ws s with
      | EmptyString => None
      | String c r =>
          if Ascii.eqb c "{" then
            match skip_ws r with
            | String "}" r' => Some (JObject [], r')
            | _ => members f r []
            end
          else if Ascii.eqb c "[" then
            match skip_ws r with
            | String "]" r' => Some (JArray [], r')
            | _ => elements f r []
            end
          else if Ascii.eqb c dquote_char then
            match chars r EmptyString with
            | Some (x, r') => Some (JString x, r')
            | None => None
            end
          else if startsWith "true" (String c r) then Some (JBool true, drop 4 (String c r))
          else if startsWith "false" (String c r) then Some (JBool false, drop 5 (String c r))
          else if startsWith "null" (String c r) then Some (JNull, drop 4 (String c r))
          else
            match number (String c r) with
            | Some (q, r') => Some (JNumber q, r')
            | None => None
            end
      end
  end

with elements (fuel : nat) (s : string) (acc : list JSON) {struct fuel}
  : option (JSON * string) :=
  match fuel with
  | O => None
  | S f =>
      match value f s with
      | Some (v, r) =>
          match skip_ws r with
          | String "," r' => elements f r' (v :: acc)
          | String "]" r' => Some (JArray (List.rev (v :: acc)), r')
          | _ => None
          end
      | None => None
      end
  end

with members (fuel : nat) (s : string) (acc : list (string * JSON)) {struct fuel}
  : option (JSON * string) :=
  match fuel with
  | O => None
  | S f =>
      match skip_ws s with
      | String c r =>
          if Ascii.eqb c dquote_char then
            match chars r EmptyString with
            | Some (k, r1) =>
                match skip_ws r1 with
                | String ":" r2 =>
                    match value f r2 with
                    | Some (v, r3) =>
                        match skip_ws r3 with
                        | String "," r4 => members f r4 ((k, v) :: acc)
                        | String "}" r4 => Some (JObject (List.rev ((k, v) :: acc)), r4)
                        | _ => None
                        end
                    | None => None
                    end
                | _ => None
                end
            | None => None
            end
          else None
      | EmptyString => None
      end
  end.

(** [JSON.parse(text)]: one value and nothing after it but white space;
    [None] is a [SyntaxError]. *)
Definition parse (text : string) : option JSON :=
  match value (2 * String.length text + 2) text with
  | Some (v, r) =>
      match skip_ws r with
      | EmptyString => Some v
      | String _ _ => None
      end
  | None => None
  end.

End Json.


(* ================================================================== *)
(** * Awaited calls: state and exceptions *)
(* ================================================================== *)

Module Effects.

(** What the catch blocks read of a thrown value: [error.message] and,
    for an HTTP client error, [error.response]. *)
Record ErrorResponse : Type := mkErrorResponse {
  error_status : Z;
  error_data : option string
}.

Record Thrown : Type := mkThrown {
  message : option string;
  response : option ErrorResponse
}.

(** The result of a block: it completes with a value, or throws. *)
Inductive Outcome (A : Type) : Type :=
| Returned (a : A)
| Threw (e : Thrown).

Arguments Returned {A} a.
Arguments Threw {A} e.

(** A block of the handler: it reads and writes the state [S] and
    completes or throws. *)
Definition M (S A : Type) : Type := S -> Outcome A * S.

Definition ret {S A : Type} (a : A) : M S A := fun s => (Returned a, s).

Definition throw {S A : Type} (e : Thrown) : M S A := fun s => (Threw e, s).

Definition bind {S A B : Type} (m : M S A) (k : A -> M S B) : M S B :=
  fun s =>
    match m s with
    | (Returned a, s') => k a s'
    | (Threw e, s') => (Threw e, s')
    end.

(** [try { m } catch (e) { h e }] *)
Definition try_catch {S A : Type} (m : M S A) (h : Thrown -> M S A) : M S A :=
  fun s =>
    match m s with
    | (Returned a, s') => (Returned a, s')
    | (Threw e, s') => h e s'
    end.

Definition get {S : Type} : M S S := fun s => (Returned s, s).

(** [error?.message || error]: the message when it is a non-empty
    string, else the thrown value itself. *)
Definition message_or_self (e : Thrown) : string + Thrown :=
  match message e with
  | Some m => if String.eqb m "" then inr e else inl m
  | None => inr e
  end.

End Effects.

Declare Scope handler_scope.
Delimit Scope handler_scope with handler.
Notation "x <- m ;; k" := (Effects.bind m (fun x => k))
  (at level 61, m at next level, right associativity) : handler_scope.
Notation "m ;;; k" := (Effects.bind m (fun _ => k))
  (at level 61, right associativity) : handler_scope.


(* ================================================================== *)
(** * The thumbnail collection *)
(* ================================================================== *)

Module Mongoose.
Import Effects.

(** A document of the [Thumbnail] model, with the fields the controllers
    pass to [Thumbnail.create] and the ones they assign.  The schema file
    is not among the sources: a created document has the fields it was
    created with and no [image_url] until a handler assigns one. *)
Record Thumbnail : Type := mkThumbnail {
  _id : string;
  userId : string;
  title : string;
  prompt_used : option string;
  user_prompt : option string;
  style : string;
  aspect_ratio : string;
  color_scheme : option string;
  text_overlay : bool;
  isGenerating : bool;
  image_url : option string
}.

(** [thumbnail.isGenerating = b] *)
Definition set_isGenerating (b : bool) (t : Thumbnail) : Thumbnail :=
  mkThumbnail (_id t) (userId t) (title t) (prompt_used t) (user_prompt t)
    (style t) (aspect_ratio t) (color_scheme t) (text_overlay t) b (image_url t).

(** [thumbnail.image_url = url] *)
Definition set_image_url (url : string) (t : Thumbnail) : Thumbnail :=
  mkThumbnail (_id t) (userId t) (title t) (prompt_used t) (user_prompt t)
    (style t) (aspect_ratio t) (color_scheme t) (text_overlay t) (isGenerating t)
    (Some url).

(** [thumbnail.prompt_used = prompt] *)
Definition set_prompt_used (prompt : string) (t : Thumbnail) : Thumbnail :=
  mkThumbnail (_id t) (userId t) (title t) (Some prompt) (user_prompt t)
    (style t) (aspect_ratio t) (color_scheme t) (text_overlay t) (isGenerating t)
    (image_url t).

(** The two states of a record whose generation is over, and the one
    before it: in progress with no image, failed (not in progress, no
    image), succeeded (not in progress, an image).  A record in progress
    that has an image is none of them. *)
Inductive Completion : Type :=
| Pending
| Failed
| Succeeded (url : string).

Definition completion (t : Thumbnail) : option Completion :=
  match isGenerating t, image_url t with
  | true, None => Some Pending
  | true, Some _ => None
  | false, None => Some Failed
  | false, Some url => Some (Succeeded url)
  end.

(** The generation of a record is over: it is failed or succeeded. *)
Definition finished (t : Thumbnail) : Prop :=
  completion t = Some Failed \/ exists url : string, completion t = Some (Succeeded url).

(** The argument of a query by id: an id, or an object literal with its
    members. *)
Inductive QueryValue : Type :=
| Id (id : string)
| Object (members : list (string * string)).

Fixpoint member (k : string) (ms : list (string * string)) : option string :=
  match ms with
  | [] => None
  | (k', v) :: r => if String.eqb k k' then Some v else member k r
  end.

(** The cast of a query value to the type of [_id].  Mongoose is a
    dependency of the application, not part of its sources; this follows
    the library: the cast of an object that has an [_id] member is that
    member, and its other members are dropped.  [None] is a [CastError]. *)
Definition castObjectId (v : QueryValue) : option string :=
  match v with
  | Id id => Some id
  | Object ms => member "_id" ms
  end.

(** [findOneAndDelete({ _id: id })] on the collection: the first document
    of that id, if any, and the collection without it. *)
Fixpoint findOneAndDelete (id : string) (coll : list Thumbnail)
  : option Thumbnail * list Thumbnail :=
  match coll with
  | [] => (None, [])
  | t :: r =>
      if String.eqb (_id t) id then (Some t, r)
      else let '(found, r') := findOneAndDelete id r in (found, t :: r')
  end.

(** The driver's part of a query: the failure, if any, of the query for
    this id (an id of the wrong shape, a lost connection). *)
Record Driver : Type := mkDriver {
  fault : string -> option Thrown
}.

(** [Model.findByIdAndDelete(id)], which Mongoose defines as
    [findOneAndDelete({ _id: id })]: the argument as a whole is the value
    of [_id] and is cast to its type. *)
Definition findByIdAndDelete (D : Driver) (arg : QueryValue)
  : M (list Thumbnail) (option Thumbnail) :=
  fun coll =>
    match castObjectId arg with
    | None => (Threw (mkThrown (Some "Cast to ObjectId failed") None), coll)
    | Some id =>
        match fault D id with
        | Some e => (Threw e, coll)
        | None =>
            let '(found, coll') := findOneAndDelete id coll in
            (Returned found, coll')
        end
    end.

End Mongoose.


(* ================================================================== *)
(** * Requests, responses and collaborators of the controllers *)
(* ================================================================== *)

Module Server.
Import JS Effects Mongoose.

(** [req.session.userId], the fields of [req.body], and [req.params.id]. *)
Record Request : Type := mkRequest {
  session_userId : string;
  body_title : string;
  body_prompt : option string;
  body_style : string;
  body_aspect_ratio : string;
  body_color_scheme : option string;
  body_text_overlay : bool;
  params_id : string
}.

(** The three shapes of [lastError]: [{ model, status, body }],
    [{ model, status, headers }] and [{ model, error }]. *)
Inductive LastError : Type :=
| UpstreamBody (model : string) (status : Z) (body : option JSON)
| UpstreamHeaders (model : string) (status : Z) (headers : list (string * string))
| CallFailed (model : string) (error : string + Thrown).

Definition model_of (e : LastError) : string :=
  match e with
  | UpstreamBody m _ _ => m
  | UpstreamHeaders m _ _ => m
  | CallFailed m _ => m
  end.

(** The JSON bodies the handlers send. *)
Inductive Body : Type :=
| Generated (message : string) (thumbnail : Thumbnail)
| NoImage (message : string) (lastError : option LastError)
    (hfResponseHeaders : option (list (string * string)))
| UploadFailed (message : string) (error : string + Thrown)
| RouterError (message : string) (error : JSON)
| Message (message : option string).

(** [res.status(code).json(body)]; [res.json(body)] has code 200. *)
Record Response : Type := mkResponse {
  code : Z;
  body : Body
}.

(** The answers of the document store, the image CDN and the clock
    during one request: the id [Thumbnail.create] gives the new document,
    the URL [imagekit.upload] returns for a file and a file name, the
    failure (if any) of the n-th [save()] of the document, and
    [Date.now()]. *)
Record Services : Type := mkServices {
  create : Request -> Thrown + string;
  upload : string -> string -> Thrown + string;
  save_fault : nat -> Thumbnail -> option Thrown;
  now : Z
}.

(** The handler's variable [thumbnail], the request's document as the
    collection holds it, and what was asked of the collaborators: the
    saves so far, the inference calls (endpoint and prompt) and the
    uploads (file and file name). *)
Record State : Type := mkState {
  thumbnail : option Thumbnail;
  stored : option Thumbnail;
  saves : nat;
  calls : list (string * string);
  uploads : list (string * string)
}.

Definition initial : State := mkState None None 0 [] [].

(** A [TypeError], as a member access on [null] throws. *)
Definition TypeError : Thrown :=
  mkThrown (Some "Cannot set properties of null") None.

(** The document [{ userId, title, prompt_used: user_prompt, user_prompt,
    style, aspect_ratio, color_scheme, text_overlay, isGenerating: true }]
    under the id the collection gives it. *)
Definition new_document (req : Request) (id : string) : Thumbnail :=
  mkThumbnail id (session_userId req) (body_title req) (body_prompt req)
    (body_prompt req) (body_style req) (body_aspect_ratio req)
    (body_color_scheme req) (body_text_overlay req) true None.

(** [thumbnail = await Thumbnail.create({ ... })] *)
Definition Thumbnail_create (V : Services) (req : Request) : M State Thumbnail :=
  fun s =>
    match create V req with
    | inl e => (Threw e, s)
    | inr id =>
        let t := new_document req id in
        (Returned t,
         mkState (Some t) (Some t) (saves s) (calls s) (uploads s))
    end.

(** An assignment to a field of [thumbnail]. *)
Definition assign (f : Thumbnail -> Thumbnail) : M State unit :=
  fun s =>
    match thumbnail s with
    | Some t =>
        (Returned tt, mkState (Some (f t)) (stored s) (saves s) (calls s) (uploads s))
    | None => (Threw TypeError, s)
    end.

(** [await thumbnail.save()]: the collection takes the document as the
    handler holds it, unless the save fails. *)
Definition save (V : Services) : M State unit :=
  fun s =>
    match thumbnail s with
    | Some t =>
        match save_fault V (saves s) t with
        | Some e =>
            (Threw e, mkState (thumbnail s) (stored s) (S (saves s)) (calls s) (uploads s))
        | None =>
            (Returned tt, mkState (thumbnail s) (Some t) (S (saves s)) (calls s) (uploads s))
        end
    | None => (Threw TypeError, s)
    end.

(** [(await imagekit.upload({ file, fileName })).url] *)
Definition imagekit_upload (V : Services) (file fileName : string) : M State string :=
  fun s =>
    let s' := mkState (thumbnail s) (stored s) (saves s) (calls s)
                (uploads s ++ [(file, fileName)]) in
    match upload V file fileName with
    | inl e => (Threw e, s')
    | inr url => (Returned url, s')
    end.

(** The property tables are object literals.  [own] is the own property
    of a name; [interpolate] is the text of [${table[k]}]: the own
    property, else the property every object literal inherits under that
    name ([inherited], [None] when there is none), else [undefined]. *)
Fixpoint own (table : list (string * string)) (k : string) : option string :=
  match table with
  | [] => None
  | (k', d) :: r => if String.eqb k k' then Some d else own r k
  end.

Definition interpolate (inherited : string -> option string)
  (table : list (string * string)) (k : string) : string :=
  match own table k with
  | Some d => d
  | None =>
      match inherited k with
      | Some t => t
      | None => "undefined"
      end
  end.

(** A response agrees with the stored record: the record is not in
    progress, hence failed or succeeded; a response that carries a record
    carries this one, has code 200, and the record is succeeded; the
    response that reports that no model gave an image has code 502, and
    the record is failed. *)
Definition settled (resp : Response) (doc : Thumbnail) : Prop :=
  isGenerating doc = false
  /\ finished doc
  /\ (forall (m : string) (d : Thumbnail),
        body resp = Generated m d ->
        d = doc /\ code resp = 200
        /\ exists url : string, completion doc = Some (Succeeded url))
  /\ (forall (m : string) (e : option LastError) (h : option (list (string * string))),
        body resp = NoImage m e h -> code resp = 502 /\ completion doc = Some Failed).

End Server.


(* ================================================================== *)
(** * server/controllers/ThumbnailController.ts *)
(* ================================================================== *)

Module ThumbnailController.
Import JS Effects Mongoose Server.
Local Open Scope handler_scope.

(** ** Prompt configuration *)

Definition stylePrompts : list (string * string) :=
  [ ("Bold & Graphic",
     "eye-catching thumbnail, bold typography, vibrant colors, expressive facial reaction, dramatic lighting, high contrast, click-worthy composition, professional style");
    ("Tech/Futuristic",
     "futuristic thumbnail, sleek modern design, digital UI elements, glowing accents, holographic effects, cyber-tech aesthetic, sharp lighting, high-tech atmosphere");
    ("Minimalist",
     "minimalist thumbnail, clean layout, simple shapes, limited color palette, plenty of negative space, modern flat design, clear focal point");
    ("Photorealistic",
     "photorealistic thumbnail, ultra-realistic lighting, natural skin tones, candid moment, DSLR-style photography, lifestyle realism, shallow depth of field");
    ("Illustrated",
     "illustrated thumbnail, custom digital illustration, stylized characters, bold outlines, vibrant colors, creative cartoon or vector art style") ].

Definition colorSchemeDescriptions : list (string * string) :=
  [ ("vibrant",
     "vibrant and energetic colors, high saturation, bold contrasts, eye-catching palette");
    ("sunset",
     "warm sunset tones, orange pink and purple hues, soft gradients, cinematic glow");
    ("forest",
     "natural green tones, earthy colors, calm and organic palette, fresh atmosphere");
    ("neon",
     "neon glow effects, electric blues and pinks, cyberpunk lighting, high contrast glow");
    ("purple",
     "purple-dominant color palette, magenta and violet tones, modern and stylish mood");
    ("monochrome",
     "black and white color scheme, high contrast, dramatic lighting, timeless aesthetic");
    ("ocean",
     "cool blue and teal tones, aquatic color palette, fresh and clean atmosphere");
    ("pastel",
     "soft pastel colors, low saturation, gentle tones, calm and friendly aesthetic") ].

(** The platform built-ins the controller calls: [JSON.parse] ([None]
    is a [SyntaxError]), and the text a template literal prints for the
    property of a given name that every object literal inherits. *)
Record Platform : Type := mkPlatform {
  JSON_parse : string -> option JSON;
  inherited : string -> option string
}.

(** What [axios.post] resolves to, with [validateStatus] accepting every
    status.  [data] is [None] when it is [undefined] or [null]; a buffer,
    empty or not, is a truthy object. *)
Record AxiosResponse : Type := mkAxiosResponse {
  status : Z;
  headers : list (string * string);
  data : option string
}.

(** The collaborators of one request: the services, and the response of
    [axios.post] for a URL and the [inputs] it carries (or what it
    throws: a network failure, the timeout). *)
Record World : Type := mkWorld {
  services :> Services;
  post : string -> string -> Thrown + AxiosResponse
}.

Section Handlers.

Variable P : Platform.
Variable W : World.

(** ** Prompt composition (lines 116-123) *)

Definition buildPrompt (title style : string) (color_scheme user_prompt : option string)
  (aspect_ratio : string) : string :=
  let prompt :=
    "Create a " ++ interpolate (inherited P) stylePrompts style ++ " for: " ++ dquote
      ++ title ++ dquote ++ " " in
  let prompt :=
    match color_scheme with
    | Some c =>
        if truthy_str color_scheme then
          prompt ++ "Use a " ++ interpolate (inherited P) colorSchemeDescriptions c
            ++ " color scheme. "
        else prompt
    | None => prompt
    end in
  let prompt :=
    match user_prompt with
    | Some u =>
        if truthy_str user_prompt then prompt ++ "Additional details: " ++ u ++ " "
        else prompt
    | None => prompt
    end in
  prompt ++ "The thumbnail should be " ++ aspect_ratio
    ++ ", visually stunning, and designed to maximize click-through rate. Make it bold, professional, and impossible to ignore.".

(** ** Helper: call Hugging Face Router *)

Definition callHuggingFaceRouter (modelId prompt : string) : M State AxiosResponse :=
  let url := "https://router.huggingface.co/models/" ++ modelId in
  fun s =>
    let s' := mkState (thumbnail s) (stored s) (saves s) (calls s ++ [(url, prompt)])
                (uploads s) in
    match post W url prompt with
    | inl e => (Threw e, s')
    | inr r => (Returned r, s')
    end.

(** ** Helper: detect JSON error in arraybuffer *)

Definition tryParseBufferAsJson (buf : option string) : option JSON :=
  match buf with
  | None => None
  | Some buffer =>
      let text := trim buffer in
      if String.eqb text "" then None
      else if (startsWith "{" text || startsWith "[" text)%bool then JSON_parse P text
      else None
  end.

(** ** The fallback loop (lines 126-189) *)

Definition modelsToTry : list string :=
  [ "stabilityai/stable-diffusion-3.5";
    "runwayml/stable-diffusion-v1-5";
    "stabilityai/stable-diffusion-xl-1024-v1-0" ].

(** The variables the loop assigns. *)
Record Locals : Type := mkLocals {
  lastError : option LastError;
  finalBuffer : option string;
  hfResponseHeaders : option (list (string * string))
}.

Inductive Flow : Type := Break | Continue.

(** [parsedJson && (parsedJson.error || parsedJson.detail || parsedJson.message)] *)
Definition reports_error (parsedJson : option JSON) : bool :=
  match parsedJson with
  | Some j =>
      (truthy j
       && (prop_truthy "error" j || prop_truthy "detail" j || prop_truthy "message" j))%bool
  | None => false
  end.

(** [status >= 400 && status < 500 && status !== 429] *)
Definition client_error (status : Z) : bool :=
  ((400 <=? status) && (status <? 500) && negb (status =? 429))%bool.

(** [(headers["content-type"] || "").toLowerCase()] *)
Definition content_type (hs : list (string * string)) : string :=
  toLowerCase
    match member "content-type" hs with
    | Some v => v
    | None => ""
    end.

(** ToBoolean of [hfResp.data], and [Buffer.from(hfResp.data)]. *)
Definition present (d : option string) : bool :=
  match d with
  | Some _ => true
  | None => false
  end.

Definition Buffer_from (d : option string) : string :=
  match d with
  | Some b => b
  | None => ""
  end.

Definition png_signature : string := bytes [137; 80; 78; 71; 13; 10; 26; 10]%nat.
Definition jpeg_signature : string := bytes [255; 216; 255]%nat.

(** The body of the [try] once the response has arrived (lines
    140-184). *)
Definition inspect (modelId : string) (hfResp : AxiosResponse) (l : Locals)
  : Flow * Locals :=
  let l := mkLocals (lastError l) (finalBuffer l) (Some (headers hfResp)) in
  let parsedJson := tryParseBufferAsJson (data hfResp) in
  if reports_error parsedJson then
    let l :=
      mkLocals (Some (UpstreamBody modelId (status hfResp) parsedJson))
        (finalBuffer l) (hfResponseHeaders l) in
    if client_error (status hfResp) then (Break, l) else (Continue, l)
  else
    let contentType := content_type (headers hfResp) in
    if includes "application/json" contentType then
      let parsed := tryParseBufferAsJson (data hfResp) in
      let l :=
        mkLocals (Some (UpstreamBody modelId (status hfResp) parsed))
          (finalBuffer l) (hfResponseHeaders l) in
      if client_error (status hfResp) then (Break, l) else (Continue, l)
    else
      if ((200 <=? status hfResp) && (status hfResp <? 300) && present (data hfResp))%bool
      then
        let buffer := Buffer_from (data hfResp) in
        let isPng := startsWith png_signature buffer in
        let isJpeg := startsWith jpeg_signature buffer in
        if (isPng || isJpeg)%bool then
          (Break, mkLocals (lastError l) (Some buffer) (hfResponseHeaders l))
        else
          (Break, mkLocals (lastError l) (Some buffer) (hfResponseHeaders l))
      else
        (Continue,
         mkLocals (Some (UpstreamHeaders modelId (status hfResp) (headers hfResp)))
           (finalBuffer l) (hfResponseHeaders l)).

(** One turn of the loop: the [try] and its [catch]. *)
Definition attempt (modelId prompt : string) (l : Locals) : M State (Flow * Locals) :=
  try_catch
    (hfResp <- callHuggingFaceRouter modelId prompt ;;
     ret (inspect modelId hfResp l))
    (fun innerErr =>
       ret (Continue,
            mkLocals (Some (CallFailed modelId (message_or_self innerErr)))
              (finalBuffer l) (hfResponseHeaders l))).

(** [for (const modelId of models) { ... }] *)
Fixpoint tryModels (models : list string) (prompt : string) (l : Locals)
  : M State Locals :=
  match models with
  | [] => ret l
  | modelId :: rest =>
      r <- attempt modelId prompt l ;;
      match fst r with
      | Break => ret (snd r)
      | Continue => tryModels rest prompt (snd r)
      end
  end.

(** ** The response classifier, as the branches of [inspect] *)

(** The branch a response takes: a JSON error body (lines 144-151), a
    JSON content type (lines 155-163), an accepted image (lines 166-181),
    anything else (line 184). *)
Inductive Classified : Type :=
| JsonError (parsedJson : JSON)
| JsonContentType (parsed : option JSON)
| Image (buffer : string)
| Opaque.

Definition classify (hfResp : AxiosResponse) : Classified :=
  match tryParseBufferAsJson (data hfResp) with
  | Some j =>
      if reports_error (Some j) then JsonError j
      else if includes "application/json" (content_type (headers hfResp)) then
        JsonContentType (Some j)
      else if ((200 <=? status hfResp) && (status hfResp <? 300)
               && present (data hfResp))%bool
      then Image (Buffer_from (data hfResp))
      else Opaque
  | None =>
      if includes "application/json" (content_type (headers hfResp)) then
        JsonContentType None
      else if ((200 <=? status hfResp) && (status hfResp <? 300)
               && present (data hfResp))%bool
      then Image (Buffer_from (data hfResp))
      else Opaque
  end.

Definition is_error (c : Classified) : bool :=
  match c with
  | Image _ => false
  | _ => true
  end.

(** What a candidate yields: the classified response, or the value the
    call threw. *)
Definition outcome (modelId prompt : string) : Thrown + Classified :=
  match post W ("https://router.huggingface.co/models/" ++ modelId) prompt with
  | inl e => inl e
  | inr r => inr (classify r)
  end.

(** The status the candidate answered with, when it answered. *)
Definition answered (modelId prompt : string) : option Z :=
  match post W ("https://router.huggingface.co/models/" ++ modelId) prompt with
  | inl _ => None
  | inr r => Some (status r)
  end.

(** The entry of [calls] for a candidate. *)
Definition call_of (prompt modelId : string) : string * string :=
  ("https://router.huggingface.co/models/" ++ modelId, prompt).

(** The buffer the candidate's answer is accepted with, if it is. *)
Definition accepted (modelId prompt : string) : option string :=
  match outcome modelId prompt with
  | inr (Image buffer) => Some buffer
  | _ => None
  end.

(** An error recognised as JSON: by its body or by its content type. *)
Definition json_error (c : Classified) : bool :=
  match c with
  | JsonError _ | JsonContentType _ => true
  | Image _ | Opaque => false
  end.

(** The candidate yields a retryable error: the call throws, or the
    answer is classified as an error and its status is 5xx or 429. *)
Definition retryable (modelId prompt : string) : bool :=
  match post W ("https://router.huggingface.co/models/" ++ modelId) prompt with
  | inl _ => true
  | inr r => (is_error (classify r) && ((500 <=? status r) || (status r =? 429)))%bool
  end.

(** The candidate yields a JSON error with a 4xx status other than 429. *)
Definition rejected (modelId prompt : string) : bool :=
  match post W ("https://router.huggingface.co/models/" ++ modelId) prompt with
  | inl _ => false
  | inr r => (json_error (classify r) && client_error (status r))%bool
  end.

(** The loop goes on after the candidate: the call throws, or the answer
    is an opaque error, or a JSON error whose status is not a 4xx other
    than 429. *)
Definition moves_on (modelId prompt : string) : bool :=
  match post W ("https://router.huggingface.co/models/" ++ modelId) prompt with
  | inl _ => true
  | inr r =>
      match classify r with
      | Image _ => false
      | Opaque => true
      | JsonError _ | JsonContentType _ => negb (client_error (status r))
      end
  end.

(** The error a candidate that is not accepted leaves in [lastError]. *)
Definition recorded (modelId prompt : string) : option LastError :=
  match post W ("https://router.huggingface.co/models/" ++ modelId) prompt with
  | inl e => Some (CallFailed modelId (message_or_self e))
  | inr r =>
      match classify r with
      | JsonError j => Some (UpstreamBody modelId (status r) (Some j))
      | JsonContentType parsed => Some (UpstreamBody modelId (status r) parsed)
      | Image _ => None
      | Opaque => Some (UpstreamHeaders modelId (status r) (headers r))
      end
  end.

(** What one turn of the loop does to the loop's variables. *)
Definition turn (modelId prompt : string) (l : Locals) : Flow * Locals :=
  match post W ("https://router.huggingface.co/models/" ++ modelId) prompt with
  | inl e =>
      (Continue,
       mkLocals (Some (CallFailed modelId (message_or_self e))) (finalBuffer l)
         (hfResponseHeaders l))
  | inr r => inspect modelId r l
  end.

(** The state after further calls of the inference client. *)
Definition logged (s : State) (cs : list (string * string)) : State :=
  mkState (thumbnail s) (stored s) (saves s) (calls s ++ cs) (uploads s).

(** The loop's variables after the turns of the candidates [models], all
    of which the loop takes. *)
Definition after_turns (models : list string) (prompt : string) (l : Locals) : Locals :=
  fold_left (fun acc modelId => snd (turn modelId prompt acc)) models l.

(** ** Main controller *)

(** [error?.message || "Unknown server error"] *)
Definition message_or_unknown (error : Thrown) : string :=
  match message_or_self error with
  | inl m => m
  | inr _ => "Unknown server error"
  end.

(** The end of the outer [catch] (lines 230-236). *)
Definition report_unexpected (error : Thrown) : Response :=
  let fallback := mkResponse 500 (Message (Some (message_or_unknown error))) in
  match response error with
  | Some r =>
      if present (error_data r) then
        match tryParseBufferAsJson (error_data r) with
        | Some parsed =>
            if truthy parsed then
              mkResponse (if error_status r =? 0 then 500 else error_status r)
                (RouterError "HF Router Error" parsed)
            else fallback
        | None => fallback
        end
      else fallback
  | None => fallback
  end.

(** The state after a [save()] of the document [t]: it is stored when
    the save succeeds. *)
Definition saved (s : State) (t : Thumbnail) (ok : bool) : State :=
  mkState (Some t) (if ok then Some t else stored s) (S (saves s)) (calls s) (uploads s).

(** The state after an upload. *)
Definition uploaded (s : State) (u : string * string) : State :=
  mkState (thumbnail s) (stored s) (saves s) (calls s) (uploads s ++ [u]).

(** The name of the uploaded file. *)
Definition filename : string := "final-output-" ++ show_Z (now W) ++ ".png".

(** The prompt the handler composes for a request. *)
Definition prompt_of (req : Request) : string :=
  buildPrompt (body_title req) (body_style req) (body_color_scheme req)
    (body_prompt req) (body_aspect_ratio req).

(** The state when the loop starts: the new document is stored. *)
Definition pending (req : Request) (id : string) : State :=
  mkState (Some (new_document req id)) (Some (new_document req id)) 0 [] [].

(** No image buffer was obtained (lines 192-201). *)
Definition fail_without_image (l : Locals) : M State Response :=
  assign (set_isGenerating false) ;;;
  save W ;;;
  ret (mkResponse 502
         (NoImage "Failed to generate image from Hugging Face models"
            (lastError l) (hfResponseHeaders l))).

(** Upload to ImageKit (lines 203-223). *)
Definition upload_and_finish (finalBuffer : string) : M State Response :=
  try_catch
    (let filename := "final-output-" ++ show_Z (now W) ++ ".png" in
     url <- imagekit_upload W finalBuffer filename ;;
     assign (set_image_url url) ;;;
     assign (set_isGenerating false) ;;;
     save W ;;;
     s <- get ;;
     match thumbnail s with
     | Some doc => ret (mkResponse 200 (Generated "Thumbnail Generated" doc))
     | None => throw TypeError
     end)
    (fun uploadErr =>
       assign (set_isGenerating false) ;;;
       save W ;;;
       ret (mkResponse 500
              (UploadFailed "Image upload failed" (message_or_self uploadErr)))).

(** The outer [catch] (lines 224-237). *)
Definition on_unexpected (error : Thrown) : M State Response :=
  s <- get ;;
  match thumbnail s with
  | Some _ => assign (set_isGenerating false) ;;; save W
  | None => ret tt
  end ;;;
  ret (report_unexpected error).

Definition generateThumbnail (req : Request) : M State Response :=
  try_catch
    (t <- Thumbnail_create W req ;;
     let prompt :=
       buildPrompt (body_title req) (body_style req) (body_color_scheme req)
         (body_prompt req) (body_aspect_ratio req) in
     l <- tryModels modelsToTry prompt (mkLocals None None None) ;;
     match finalBuffer l with
     | None => fail_without_image l
     | Some buffer => upload_and_finish buffer
     end)
    on_unexpected.

End Handlers.

(** ** Delete controller *)

(** [await Thumbnail.findByIdAndDelete({ _id: id, userId })], then the
    confirmation; a failure of the query is answered with its message. *)
Definition deleteThumbnail (D : Driver) (req : Request) : M (list Thumbnail) Response :=
  try_catch
    (findByIdAndDelete D
       (Object [("_id", params_id req); ("userId", session_userId req)]) ;;;
     ret (mkResponse 200 (Message (Some "Thumbnail Deleted Successfully"))))
    (fun error => ret (mkResponse 500 (Message (message error)))).

End ThumbnailController.


(* ================================================================== *)
(** * The single-model controller (the SDK client) *)
(* ================================================================== *)

Module SdkController.
Import JS Effects Mongoose Server.
Local Open Scope handler_scope.

(** The two tables have the text of the fallback controller's. *)
Definition stylePrompts : list (string * string) := ThumbnailController.stylePrompts.

Definition colorSchemeDescriptions : list (string * string) :=
  ThumbnailController.colorSchemeDescriptions.

(** What [client.textToImage] resolves to: a base64 string or a blob. *)
Inductive ImageBlob : Type :=
| Base64 (text : string)
| Blob (bytes : string).

(** The collaborators of one request: the services, the answer of
    [client.textToImage] for a model and its [inputs], and the platform's
    [Buffer.from(text, "base64")] and inherited properties. *)
Record World : Type := mkWorld {
  services :> Services;
  textToImage : string -> string -> Thrown + ImageBlob;
  from_base64 : string -> string;
  inherited : string -> option string
}.

Section Handlers.

Variable W : World.

Definition buildPrompt (title style : string) (color_scheme user_prompt : option string)
  (aspect_ratio : string) : string :=
  let prompt :=
    "Create a " ++ interpolate (inherited W) stylePrompts style ++ " for: " ++ dquote
      ++ title ++ dquote ++ " " in
  let prompt :=
    match color_scheme with
    | Some c =>
        if truthy_str color_scheme then
          prompt ++ "Use a " ++ interpolate (inherited W) colorSchemeDescriptions c
            ++ " color scheme. "
        else prompt
    | None => prompt
    end in
  let prompt :=
    match user_prompt with
    | Some u =>
        if truthy_str user_prompt then prompt ++ "Additional details: " ++ u ++ " "
        else prompt
    | None => prompt
    end in
  prompt ++ "Compose the image for a " ++ aspect_ratio
    ++ " aspect ratio. Make it visually stunning and designed to maximize click-through rate. Bold, professional, and impossible to ignore.".

(** [await client.textToImage({ model, inputs: prompt, ... })] *)
Definition client_textToImage (model prompt : string) : M State ImageBlob :=
  fun s =>
    let s' := mkState (thumbnail s) (stored s) (saves s) (calls s ++ [(model, prompt)])
                (uploads s) in
    match textToImage W model prompt with
    | inl e => (Threw e, s')
    | inr b => (Returned b, s')
    end.

Definition generateThumbnail (req : Request) : M State Response :=
  try_catch
    (t <- Thumbnail_create W req ;;
     let prompt :=
       buildPrompt (body_title req) (body_style req) (body_color_scheme req)
         (body_prompt req) (body_aspect_ratio req) in
     imageBlob <- client_textToImage "black-forest-labs/FLUX.1-schnell" prompt ;;
     let finalBuffer :=
       match imageBlob with
       | Base64 text => from_base64 W text
       | Blob bytes => bytes
       end in
     let filename := "thumbnail-" ++ show_Z (now W) ++ ".png" in
     url <- imagekit_upload W finalBuffer filename ;;
     assign (set_image_url url) ;;;
     assign (set_prompt_used prompt) ;;;
     assign (set_isGenerating false) ;;;
     save W ;;;
     s <- get ;;
     match thumbnail s with
     | Some doc => ret (mkResponse 200 (Generated "Thumbnail Generated" doc))
     | None => throw TypeError
     end)
    (fun error => ret (mkResponse 500 (Message (message error)))).

(** The prompt the handler composes for a request, the buffer it makes
    of the client's answer, the name of the file it uploads and the
    record it saves. *)
Definition prompt_of (req : Request) : string :=
  buildPrompt (body_title req) (body_style req) (body_color_scheme req)
    (body_prompt req) (body_aspect_ratio req).

Definition buffer_of (imageBlob : ImageBlob) : string :=
  match imageBlob with
  | Base64 text => from_base64 W text
  | Blob bytes => bytes
  end.

Definition filename : string := "thumbnail-" ++ show_Z (now W) ++ ".png".

Definition finalized (req : Request) (id url : string) : Thumbnail :=
  set_isGenerating false
    (set_prompt_used (prompt_of req) (set_image_url url (new_document req id))).

(** An exception [e] is thrown after the record of [req] is created under
    [id]: by the inference call, by the upload, or by the save. *)
Inductive ThrownAfterCreate (req : Request) (id : string) (e : Thrown) : Prop :=
| InferenceFails :
    textToImage W "black-forest-labs/FLUX.1-schnell" (prompt_of req) = inl e ->
    ThrownAfterCreate req id e
| UploadFails (imageBlob : ImageBlob) :
    textToImage W "black-forest-labs/FLUX.1-schnell" (prompt_of req) = inr imageBlob ->
    upload W (buffer_of imageBlob) filename = inl e ->
    ThrownAfterCreate req id e
| SaveFails (imageBlob : ImageBlob) (url : string) :
    textToImage W "black-forest-labs/FLUX.1-schnell" (prompt_of req) = inr imageBlob ->
    upload W (buffer_of imageBlob) filename = inr url ->
    save_fault W 0 (finalized req id url) = Some e ->
    ThrownAfterCreate req id e.

End Handlers.

(** The sibling's delete controller: the same query, the same answers. *)
Definition deleteThumbnail (D : Driver) (req : Request) : M (list Thumbnail) Response :=
  try_catch
    (findByIdAndDelete D
       (Object [("_id", params_id req); ("userId", session_userId req)]) ;;;
     ret (mkResponse 200 (Message (Some "Thumbnail Deleted Successfully"))))
    (fun error => ret (mkResponse 500 (Message (message error)))).

End SdkController.


(* ================================================================== *)
(** * server/config/db.js *)
(* ================================================================== *)

Module Db.
Import Effects.
Local Open Scope handler_scope.

(** The connection as [connectDB] acts on it: how many listeners of
    [connected] are registered, whether it is connected, and the lines
    the listeners have written to the console. *)
Record State : Type := mkState {
  listeners : nat;
  connected : bool;
  console : list string
}.

(** [process.env.MONGODB_URI] ([None] when it is not set), and the
    failure, if any, of [mongoose.connect] on it. *)
Record World : Type := mkWorld {
  MONGODB_URI : option string;
  connect_fault : option string -> option Thrown
}.





End Db.


(* ================================================================== *)
(** * The prompt, as the specification describes it *)
(* ================================================================== *)

(** The specification gives the prompt as a concatenation in a fixed
    order: the style description with the title, the colour description
    if a colour scheme is given, the free text if given, the framing
    suffix with the aspect ratio.  These are its segments. *)
Module PromptSpec.
Import JS Server ThumbnailController.

Definition style_and_title (description title : string) : string :=
  "Create a " ++ description ++ " for: " ++ dquote ++ title ++ dquote ++ " ".

Definition color_sentence (description : option string) : string :=
  match description with
  | Some d => "Use a " ++ d ++ " color scheme. "
  | None => ""
  end.

(** The free text is given when it is a non-empty string. *)
Definition given (user_prompt : option string) : option string :=
  match user_prompt with
  | Some u => if String.eqb u "" then None else Some u
  | None => None
  end.

Definition details_sentence (user_prompt : option string) : string :=
  match given user_prompt with
  | Some u => "Additional details: " ++ u ++ " "
  | None => ""
  end.

Definition framing (aspect_ratio : string) : string :=
  "The thumbnail should be " ++ aspect_ratio
    ++ ", visually stunning, and designed to maximize click-through rate. Make it bold, professional, and impossible to ignore.".

(** The framing suffix of the single-model controller. *)
Definition sdk_framing (aspect_ratio : string) : string :=
  "Compose the image for a " ++ aspect_ratio
    ++ " aspect ratio. Make it visually stunning and designed to maximize click-through rate. Bold, professional, and impossible to ignore.".

(** The text the composer prints for a colour scheme, if one is given. *)
Definition color_text (P : Platform) (color_scheme : option string) : option string :=
  match given color_scheme with
  | Some c => Some (interpolate (inherited P) colorSchemeDescriptions c)
  | None => None
  end.

(** The description of a colour scheme of the table. *)
Definition color_description (color_scheme : option string) : option string :=
  match color_scheme with
  | Some c => own colorSchemeDescriptions c
  | None => None
  end.

(** A colour scheme is valid when it is absent or a key of the table. *)
Definition valid_color (color_scheme : option string) : Prop :=
  match color_scheme with
  | Some c => own colorSchemeDescriptions c <> None
  | None => True
  end.

Definition optional (o : option string) : list string :=
  match o with
  | Some x => [x]
  | None => []
  end.

(** The strings [parts] occur in [s] one after the other, in this order. *)
Fixpoint in_order (parts : list string) (s : string) : Prop :=
  match parts with
  | [] => True
  | p :: rest => exists before after : string, s = before ++ p ++ after /\ in_order rest after
  end.

End PromptSpec.


(* ================================================================== *)
(** * Concrete platforms, responses and collaborators *)
(* ================================================================== *)

Module Examples.
Import JS Effects Mongoose Server ThumbnailController.

(** The text of [${f}] for a built-in function named [name]. *)
Definition native (name : string) : string :=
  "function " ++ name ++ "() { [native code] }".

(** The properties an object literal inherits from [Object.prototype],
    as a template literal prints them. *)
Definition object_prototype (k : string) : option string :=
  if String.eqb k "__proto__" then Some "[object Object]"
  else if String.eqb k "constructor" then Some (native "Object")
  else if existsb (String.eqb k)
            [ "toString"; "toLocaleString"; "valueOf"; "hasOwnProperty";
              "isPrototypeOf"; "propertyIsEnumerable"; "__defineGetter__";
              "__defineSetter__"; "__lookupGetter__"; "__lookupSetter__" ]
  then Some (native k)
  else None.

Definition node : Platform := mkPlatform Json.parse object_prototype.

Definition request : Request :=
  mkRequest "user-1" "My Video" (Some "with a red arrow") "Minimalist" "16:9"
    (Some "neon") false "".

(** A JSON text [{ "k": v }] with [v] given as text. *)
Definition json_member (k v : string) : string :=
  "{" ++ dquote ++ k ++ dquote ++ ":" ++ v ++ "}".

Definition quoted (s : string) : string := dquote ++ s ++ dquote.

Definition png : string := png_signature ++ "IHDR".

Definition image200 : AxiosResponse :=
  mkAxiosResponse 200 [("content-type", "image/png")] (Some png).

(** An image of a format the signature checks do not know. *)
Definition webp200 : AxiosResponse :=
  mkAxiosResponse 200 [("content-type", "image/webp")] (Some "RIFF....WEBP").

Definition busy500 : AxiosResponse :=
  mkAxiosResponse 500 [("content-type", "text/html")] (Some "Internal Server Error").

Definition limited429 : AxiosResponse :=
  mkAxiosResponse 429 [("content-type", "application/json")]
    (Some (json_member "error" (quoted "Rate limit reached"))).

Definition rejected404 : AxiosResponse :=
  mkAxiosResponse 404 [("content-type", "application/json")]
    (Some (json_member "error" (quoted "Model not found"))).

Definition notfound404 : AxiosResponse :=
  mkAxiosResponse 404 [("content-type", "text/plain")] (Some "Not Found").

Definition null_error200 : AxiosResponse :=
  mkAxiosResponse 200 [("content-type", "image/png")] (Some (json_member "error" "null")).

(** A model that is still loading: a JSON body with no error field. *)
Definition loading503 : AxiosResponse :=
  mkAxiosResponse 503 [("content-type", "application/json; charset=utf-8")]
    (Some (json_member "estimated_time" "20")).

(** A success status with an empty buffer. *)
Definition empty204 : AxiosResponse :=
  mkAxiosResponse 204 [] (Some "").

Definition endpoint (modelId : string) : string :=
  "https://router.huggingface.co/models/" ++ modelId.

(** The answers of the three models of [modelsToTry], in order; any
    other endpoint answers with [other]. *)
Definition answers (first second third other : Thrown + AxiosResponse)
  (url inputs : string) : Thrown + AxiosResponse :=
  if String.eqb url (endpoint "stabilityai/stable-diffusion-3.5") then first
  else if String.eqb url (endpoint "runwayml/stable-diffusion-v1-5") then second
  else if String.eqb url (endpoint "stabilityai/stable-diffusion-xl-1024-v1-0") then third
  else other.

Definition cdn_url : string := "https://ik.imagekit.io/demo/final-output.png".

(** Services that all succeed. *)
Definition reliable : Services :=
  mkServices (fun _ => inr "65f0c0ffee0000000000abcd") (fun _ _ => inr cdn_url)
    (fun _ _ => None) 1700000000000.

Definition write_error : Thrown := mkThrown (Some "connection reset") None.

(** Services whose first [save()] fails and whose later ones succeed. *)
Definition flaky : Services :=
  mkServices (fun _ => inr "65f0c0ffee0000000000abcd") (fun _ _ => inr cdn_url)
    (fun n _ => match n with O => Some write_error | S _ => None end) 1700000000000.

Definition timeout_error : Thrown := mkThrown (Some "timeout of 120000ms exceeded") None.

(** 500, then 429, then an image. *)
Definition third_succeeds : World :=
  mkWorld reliable (answers (inr busy500) (inr limited429) (inr image200) (inr image200)).

(** A JSON 404 from the first model. *)
Definition first_rejects : World :=
  mkWorld reliable (answers (inr rejected404) (inr image200) (inr image200) (inr image200)).

(** A plain-text 404 from the first model. *)
Definition first_not_found : World :=
  mkWorld reliable (answers (inr notfound404) (inr image200) (inr image200) (inr image200)).

(** The first model answers with an image. *)
Definition first_succeeds : World :=
  mkWorld reliable (answers (inr image200) (inr image200) (inr image200) (inr image200)).

(** The first model answers with an image; the first [save()] fails. *)
Definition first_succeeds_flaky : World :=
  mkWorld flaky (answers (inr image200) (inr image200) (inr image200) (inr image200)).

(** No model answers with an image; the first [save()] fails. *)
Definition none_succeeds_flaky : World :=
  mkWorld flaky (answers (inr busy500) (inl timeout_error) (inr busy500) (inr busy500)).

(** No model answers with an image; the services are reliable. *)
Definition none_succeeds : World :=
  mkWorld reliable (answers (inr busy500) (inl timeout_error) (inr busy500) (inr busy500)).

(** A record of another user, and that user's collection. *)
Definition alice_record : Thumbnail :=
  mkThumbnail "65f0c0ffee0000000000abcd" "alice" "Alice's video" None None "Minimalist"
    "16:9" None false false (Some cdn_url).

Definition healthy : Driver := mkDriver (fun _ => None).

(** Bob asks for the deletion of Alice's record. *)
Definition bob_deletes_alice : Request :=
  mkRequest "bob" "" None "" "" None false "65f0c0ffee0000000000abcd".

(** The single-model controller's collaborators: the inference call
    fails; the upload fails; the save fails. *)
Definition sdk_inference_fails : SdkController.World :=
  SdkController.mkWorld reliable (fun _ _ => inl timeout_error) (fun s => s)
    object_prototype.

Definition upload_error : Thrown := mkThrown (Some "upload rejected") None.

Definition sdk_upload_fails : SdkController.World :=
  SdkController.mkWorld
    (mkServices (fun _ => inr "65f0c0ffee0000000000abcd") (fun _ _ => inl upload_error)
       (fun _ _ => None) 1700000000000)
    (fun _ _ => inr (SdkController.Blob png)) (fun s => s) object_prototype.

Definition sdk_save_fails : SdkController.World :=
  SdkController.mkWorld
    (mkServices (fun _ => inr "65f0c0ffee0000000000abcd") (fun _ _ => inr cdn_url)
       (fun _ _ => Some write_error) 1700000000000)
    (fun _ _ => inr (SdkController.Blob png)) (fun s => s) object_prototype.

(** The records the requests of the examples store. *)
Definition generated_record : Thumbnail :=
  set_isGenerating false
    (set_image_url cdn_url (new_document request "65f0c0ffee0000000000abcd")).

Definition failed_record : Thumbnail :=
  set_isGenerating false (new_document request "65f0c0ffee0000000000abcd").

(** The single-model controller's collaborators when all goes well. *)
Definition sdk_succeeds : SdkController.World :=
  SdkController.mkWorld reliable (fun _ _ => inr (SdkController.Blob png)) (fun s => s)
    object_prototype.

(** Services whose document cannot be created. *)
Definition validation_error : Thrown :=
  mkThrown (Some "Thumbnail validation failed") None.

Definition no_create : World :=
  mkWorld
    (mkServices (fun _ => inl validation_error) (fun _ _ => inr cdn_url)
       (fun _ _ => None) 1700000000000)
    (answers (inr image200) (inr image200) (inr image200) (inr image200)).

(** The first model answers with an image; the upload is refused. *)
Definition upload_refused : World :=
  mkWorld
    (mkServices (fun _ => inr "65f0c0ffee0000000000abcd") (fun _ _ => inl upload_error)
       (fun _ _ => None) 1700000000000)
    (answers (inr image200) (inr image200) (inr image200) (inr image200)).

(** No model answers with an image; no [save()] succeeds. *)
Definition store_down : World :=
  mkWorld
    (mkServices (fun _ => inr "65f0c0ffee0000000000abcd") (fun _ _ => inr cdn_url)
       (fun _ _ => Some write_error) 1700000000000)
    (answers (inr busy500) (inl timeout_error) (inr busy500) (inr busy500)).

(** A record of Bob, a collection of two records, a driver that has lost
    its connection, and Bob's request for his own record. *)
Definition bob_record : Thumbnail :=
  mkThumbnail "65f0c0ffee0000000000beef" "bob" "Bob's video" None None "Illustrated"
    "1:1" None false false None.

Definition two_records : list Thumbnail := [alice_record; bob_record].

Definition disconnected : Driver := mkDriver (fun _ => Some write_error).

Definition bob_deletes_own : Request :=
  mkRequest "bob" "" None "" "" None false "65f0c0ffee0000000000beef".




(** The three candidates of [modelsToTry], the prompt of [request], and
    the loop's variables before its first turn. *)
Definition first_model : string := "stabilityai/stable-diffusion-3.5".
Definition second_model : string := "runwayml/stable-diffusion-v1-5".
Definition third_model : string := "stabilityai/stable-diffusion-xl-1024-v1-0".

Definition prompt : string := prompt_of node request.

Definition start : Locals := mkLocals None None None.

End Examples.


(* ================================================================== *)
(** * The fallback loop *)
(* ================================================================== *)

Section FallbackLoop.
Import JS Effects Mongoose Server ThumbnailController.

Variable P : Platform.
Variable W : World.

(** The body of the loop acts on the branch [classify] names. *)
Lemma inspect_classify (modelId : string) (r : AxiosResponse) (l : Locals) :
  inspect P modelId r l =
  match classify P r with
  | JsonError j =>
      (if client_error (status r) then Break else Continue,
       mkLocals (Some (UpstreamBody modelId (status r) (Some j))) (finalBuffer l)
         (Some (headers r)))
  | JsonContentType parsed =>
      (if client_error (status r) then Break else Continue,
       mkLocals (Some (UpstreamBody modelId (status r) parsed)) (finalBuffer l)
         (Some (headers r)))
  | Image buffer =>
      (Break, mkLocals (lastError l) (Some buffer) (Some (headers r)))
  | Opaque =>
      (Continue,
       mkLocals (Some (UpstreamHeaders modelId (status r) (headers r))) (finalBuffer l)
         (Some (headers r)))
  end.
Proof.
  unfold inspect, classify.
  destruct (tryParseBufferAsJson P (data r)) as [j|] eqn:Hparse.
  - destruct (reports_error (Some j)) eqn:Herr.
    + destruct (client_error (status r)); reflexivity.
    + destruct (includes "application/json" (content_type (headers r))).
      * destruct (client_error (status r)); reflexivity.
      * destruct ((200 <=? status r) && (status r <? 300) && present (data r))%bool;
          [destruct (_ || _)%bool|]; reflexivity.
  - cbn [reports_error].
    destruct (includes "application/json" (content_type (headers r))).
    + destruct (client_error (status r)); reflexivity.
    + destruct ((200 <=? status r) && (status r <? 300) && present (data r))%bool;
        [destruct (_ || _)%bool|]; reflexivity.
Qed.

(** A turn logs its call and never throws. *)
Lemma attempt_turn (modelId prompt : string) (l : Locals) (s : State) :
  attempt P W modelId prompt l s
  = (Returned (turn P W modelId prompt l), logged s [call_of prompt modelId]).
Proof.
  unfold attempt, try_catch, bind, callHuggingFaceRouter, turn, logged, call_of, ret.
  destruct (post W _ prompt); reflexivity.
Qed.

(** The direction a turn takes depends on the candidate's answer only. *)
Lemma turn_flow (modelId prompt : string) (l : Locals) :
  fst (turn P W modelId prompt l)
  = if moves_on P W modelId prompt then Continue else Break.
Proof.
  unfold turn, moves_on.
  destruct (post W _ prompt) as [e|r]; [reflexivity|].
  rewrite inspect_classify.
  destruct (classify P r); cbn [fst]; try reflexivity;
    destruct (client_error (status r)); reflexivity.
Qed.

Lemma logged_nil (s : State) : logged s [] = s.
Proof. destruct s; unfold logged; cbn. now rewrite app_nil_r. Qed.

Lemma logged_logged (s : State) (a b : list (string * string)) :
  logged (logged s a) b = logged s (a ++ b).
Proof. unfold logged; cbn. now rewrite app_assoc. Qed.

(** A candidate the loop stops at ends it, whatever follows. *)
Lemma tryModels_stop (modelId : string) (rest : list string) (prompt : string)
  (l : Locals) (s : State) :
  moves_on P W modelId prompt = false ->
  tryModels P W (modelId :: rest) prompt l s
  = (Returned (snd (turn P W modelId prompt l)), logged s [call_of prompt modelId]).
Proof.
  intros Hstop. cbn [tryModels]. unfold bind at 1.
  rewrite attempt_turn, turn_flow, Hstop. reflexivity.
Qed.

(** A candidate the loop goes on after hands over to the next ones. *)
Lemma tryModels_next (modelId : string) (rest : list string) (prompt : string)
  (l : Locals) (s : State) :
  moves_on P W modelId prompt = true ->
  tryModels P W (modelId :: rest) prompt l s
  = tryModels P W rest prompt (snd (turn P W modelId prompt l))
      (logged s [call_of prompt modelId]).
Proof.
  intros Hgo. cbn [tryModels]. unfold bind at 1.
  rewrite attempt_turn, turn_flow, Hgo. reflexivity.
Qed.

(** The candidates before the first one the loop stops at are all tried,
    in order. *)
Lemma tryModels_app (pre rest : list string) (prompt : string) (l : Locals) (s : State) :
  Forall (fun m => moves_on P W m prompt = true) pre ->
  tryModels P W (pre ++ rest) prompt l s
  = tryModels P W rest prompt (after_turns P W pre prompt l)
      (logged s (map (call_of prompt) pre)).
Proof.
  intros Hpre. revert l s.
  induction Hpre as [|m pre Hm _ IH]; intros l s.
  - cbn. now rewrite logged_nil.
  - cbn [app]. rewrite tryModels_next by exact Hm.
    rewrite IH, logged_logged. reflexivity.
Qed.

(** The loop never throws, and its calls are those of a prefix of the
    candidates, in the order of the list; it touches nothing else. *)
Lemma tryModels_prefix (models : list string) (prompt : string) (l : Locals) (s : State) :
  exists (l' : Locals) (n : nat),
    tryModels P W models prompt l s
    = (Returned l', logged s (map (call_of prompt) (firstn n models))).
Proof.
  revert l s. induction models as [|m rest IH]; intros l s.
  - exists l, 0%nat. cbn. now rewrite logged_nil.
  - destruct (moves_on P W m prompt) eqn:Hm.
    + rewrite tryModels_next by exact Hm.
      destruct (IH (snd (turn P W m prompt l)) (logged s [call_of prompt m]))
        as (l' & n & Hrun).
      exists l', (S n). rewrite Hrun, logged_logged. reflexivity.
    + rewrite tryModels_stop by exact Hm.
      exists (snd (turn P W m prompt l)), 1%nat. reflexivity.
Qed.

(** ** What a turn leaves in the loop's variables *)

Lemma turn_accepted (modelId prompt buffer : string) (l : Locals) :
  accepted P W modelId prompt = Some buffer ->
  moves_on P W modelId prompt = false
  /\ finalBuffer (snd (turn P W modelId prompt l)) = Some buffer
  /\ lastError (snd (turn P W modelId prompt l)) = lastError l.
Proof.
  unfold accepted, outcome, moves_on, turn.
  destruct (post W _ prompt) as [e|r]; [discriminate|].
  rewrite inspect_classify.
  destruct (classify P r); try discriminate.
  intros [= ->]. repeat split.
Qed.

Lemma turn_recorded (modelId prompt : string) (l : Locals) :
  accepted P W modelId prompt = None ->
  exists e : LastError,
    recorded P W modelId prompt = Some e
    /\ model_of e = modelId
    /\ lastError (snd (turn P W modelId prompt l)) = Some e
    /\ finalBuffer (snd (turn P W modelId prompt l)) = finalBuffer l.
Proof.
  unfold accepted, outcome, recorded, turn.
  destruct (post W _ prompt) as [e|r].
  - intros _. eexists. repeat split.
  - rewrite inspect_classify.
    destruct (classify P r); try discriminate; intros _; eexists; repeat split.
Qed.

Lemma moves_on_not_accepted (modelId prompt : string) :
  moves_on P W modelId prompt = true -> accepted P W modelId prompt = None.
Proof.
  unfold accepted, outcome, moves_on.
  destruct (post W _ prompt) as [e|r]; [reflexivity|].
  destruct (classify P r); try reflexivity; discriminate.
Qed.

Lemma client_error_iff (status : Z) :
  client_error status = true <-> (400 <= status < 500 /\ status <> 429).
Proof.
  unfold client_error.
  rewrite !andb_true_iff, negb_true_iff, Z.leb_le, Z.ltb_lt, Z.eqb_neq. lia.
Qed.

Lemma retryable_moves_on (modelId prompt : string) :
  retryable P W modelId prompt = true -> moves_on P W modelId prompt = true.
Proof.
  unfold retryable, moves_on.
  destruct (post W _ prompt) as [e|r]; [reflexivity|].
  destruct (classify P r); cbn [is_error andb]; try reflexivity; try discriminate;
    intros H; apply orb_true_iff in H; rewrite Z.leb_le, Z.eqb_eq in H;
    apply negb_true_iff;
    (destruct (client_error (status r)) eqn:E;
     [apply client_error_iff in E; lia | reflexivity]).
Qed.

Lemma rejected_stops (modelId prompt : string) :
  rejected P W modelId prompt = true ->
  moves_on P W modelId prompt = false
  /\ accepted P W modelId prompt = None
  /\ exists (status : Z) (body : option JSON),
       recorded P W modelId prompt = Some (UpstreamBody modelId status body)
       /\ answered W modelId prompt = Some status
       /\ client_error status = true.
Proof.
  unfold rejected, moves_on, accepted, outcome, recorded, answered.
  destruct (post W _ prompt) as [e|r]; [discriminate|].
  destruct (classify P r); cbn [json_error andb]; try discriminate;
    intros Hc; rewrite Hc; repeat split; eexists _, _; repeat split; exact Hc.
Qed.

(** The turns the loop goes on after accept no image. *)
Lemma after_turns_finalBuffer (pre : list string) (prompt : string) (l : Locals) :
  Forall (fun m => moves_on P W m prompt = true) pre ->
  finalBuffer (after_turns P W pre prompt l) = finalBuffer l.
Proof.
  intros Hpre. revert l. unfold after_turns.
  induction Hpre as [|m pre Hm _ IH]; intros l; [reflexivity|].
  cbn [fold_left]. rewrite IH.
  destruct (turn_recorded m prompt l (moves_on_not_accepted _ _ Hm))
    as (e & _ & _ & _ & Hbuf).
  exact Hbuf.
Qed.

(** ** The properties of the loop *)

(** C1, as amended.  When the loop reaches a candidate whose answer is
    recognised as a JSON error (a JSON body with a truthy [error],
    [detail] or [message], or a JSON content type) and has a status in
    [400,500) other than 429, the loop stops at that candidate: the calls
    made are those of the candidates up to it, in order, none of the
    remaining ones is invoked, no image is accepted, and that error is
    the last error. *)
Theorem json_client_error_stops_loop
  (pre : list string) (modelId : string) (rest : list string) (prompt : string)
  (l : Locals) (s : State) :
  Forall (fun m => moves_on P W m prompt = true) pre ->
  rejected P W modelId prompt = true ->
  exists (status : Z) (body : option JSON) (l' : Locals),
    answered W modelId prompt = Some status
    /\ 400 <= status < 500 /\ status <> 429
    /\ tryModels P W (pre ++ modelId :: rest) prompt l s
       = (Returned l', logged s (map (call_of prompt) (pre ++ [modelId])))
    /\ lastError l' = Some (UpstreamBody modelId status body)
    /\ finalBuffer l' = finalBuffer l.
Proof.
  intros Hpre Hrej.
  destruct (rejected_stops _ _ Hrej) as (Hstop & Hacc & status & body & Hrec & Hans & Hce).
  destruct (turn_recorded modelId prompt (after_turns P W pre prompt l) Hacc)
    as (e & He & _ & Hlast & Hbuf).
  rewrite Hrec in He. injection He as <-.
  apply client_error_iff in Hce.
  exists status, body, (snd (turn P W modelId prompt (after_turns P W pre prompt l))).
  split; [exact Hans|]. split; [tauto|]. split; [tauto|].
  split; [|split].
  - rewrite tryModels_app by exact Hpre.
    rewrite tryModels_stop by exact Hstop.
    rewrite logged_logged, map_app. reflexivity.
  - exact Hlast.
  - rewrite Hbuf. now apply after_turns_finalBuffer.
Qed.

(** C5.  The loop tries the candidates in the order of the list: when
    every candidate before [modelId] yields a retryable error (the call
    throws, or the answer is an error with a 5xx status or 429) and the
    answer of [modelId] is classified as an image, the loop returns
    without throwing, its calls are those of the candidates up to
    [modelId] in order, it accepts that image's buffer, and no later
    candidate is invoked. *)
Theorem loop_accepts_first_image
  (pre : list string) (modelId : string) (rest : list string) (prompt : string)
  (l : Locals) (s : State) (buffer : string) :
  Forall (fun m => retryable P W m prompt = true) pre ->
  outcome P W modelId prompt = inr (Image buffer) ->
  exists l' : Locals,
    tryModels P W (pre ++ modelId :: rest) prompt l s
    = (Returned l', logged s (map (call_of prompt) (pre ++ [modelId])))
    /\ finalBuffer l' = Some buffer.
Proof.
  intros Hpre Himg.
  assert (Hacc : accepted P W modelId prompt = Some buffer).
  { unfold accepted. now rewrite Himg. }
  assert (Hgo : Forall (fun m => moves_on P W m prompt = true) pre).
  { eapply Forall_impl; [|exact Hpre]. intros m. apply retryable_moves_on. }
  destruct (turn_accepted modelId prompt (after_turns P W pre prompt l) Hacc)
    as (Hstop & Hbuf & _).
  exists (snd (turn P W modelId prompt (after_turns P W pre prompt l))).
  split; [|exact Hbuf].
  rewrite tryModels_app by exact Hgo.
  rewrite tryModels_stop by exact Hstop.
  rewrite logged_logged, map_app. reflexivity.
Qed.

(** Whatever the candidates answer, the loop returns without throwing,
    and the calls it makes are those of the first candidates of the list,
    in the order of the list; nothing else of the state changes. *)
Theorem loop_calls_follow_list_order
  (models : list string) (prompt : string) (l : Locals) (s : State) :
  exists (l' : Locals) (n : nat),
    tryModels P W models prompt l s
    = (Returned l', logged s (map (call_of prompt) (firstn n models))).
Proof. apply tryModels_prefix. Qed.

End FallbackLoop.

Section FallbackLoopExamples.
Import JS Effects Mongoose Server ThumbnailController Examples.

(** A JSON 404 from the first candidate: the loop stops there, and the
    second candidate is never invoked. *)
Lemma json_client_error_stops_loop_witness :
  exists (status : Z) (body : option JSON) (l' : Locals),
    answered first_rejects first_model prompt = Some status
    /\ 400 <= status < 500 /\ status <> 429
    /\ tryModels node first_rejects modelsToTry prompt start initial
       = (Returned l', logged initial (map (call_of prompt) [first_model]))
    /\ lastError l' = Some (UpstreamBody first_model status body)
    /\ finalBuffer l' = finalBuffer start.
Proof.
  apply (@json_client_error_stops_loop node first_rejects [] first_model
           [second_model; third_model] prompt start initial).
  - constructor.
  - vm_compute. reflexivity.
Defined.

(** C1 as stated fails: the answer of the first candidate is classified
    as an error and has status 404, and the loop goes on to the second
    candidate, whose image it accepts. *)
Lemma opaque_client_error_does_not_stop_loop :
  outcome node first_not_found first_model prompt = inr Opaque
  /\ answered first_not_found first_model prompt = Some 404
  /\ exists l' : Locals,
       tryModels node first_not_found modelsToTry prompt start initial
       = (Returned l',
          logged initial (map (call_of prompt) [first_model; second_model]))
       /\ finalBuffer l' = Some png.
Proof.
  split; [vm_compute; reflexivity|].
  split; [vm_compute; reflexivity|].
  eexists. split; vm_compute; reflexivity.
Defined.

(** 500, then 429, then an image: the image of the third candidate is
    accepted and a fourth candidate is never called. *)
Lemma loop_accepts_first_image_witness :
  exists l' : Locals,
    tryModels node third_succeeds
      ([first_model; second_model] ++ third_model :: ["another/fourth-model"])
      prompt start initial
    = (Returned l',
       logged initial (map (call_of prompt) [first_model; second_model; third_model]))
    /\ finalBuffer l' = Some png.
Proof.
  apply (@loop_accepts_first_image node third_succeeds [first_model; second_model]
           third_model ["another/fourth-model"] prompt start initial png).
  - repeat constructor.
  - vm_compute. reflexivity.
Defined.

End FallbackLoopExamples.


(* ================================================================== *)
(** * The response classifier *)
(* ================================================================== *)

Section Classifier.
Import JS Effects Mongoose Server ThumbnailController.

Variable P : Platform.

(** Only an object has a truthy [error], [detail] or [message]. *)
Lemma prop_truthy_truthy (k : string) (j : JSON) :
  prop_truthy k j = true -> truthy j = true.
Proof.
  unfold prop_truthy, prop. destruct j; try discriminate. reflexivity.
Qed.

Lemma startsWith_nonempty (p s : string) :
  p <> "" -> startsWith p s = true -> String.eqb s "" = false.
Proof.
  intros Hp Hs. destruct s; [|reflexivity].
  destruct p; [congruence|discriminate].
Qed.

(** What the helper returns on a buffer whose text, trimmed, starts with
    a brace or a bracket: the result of [JSON.parse] on that text. *)
Lemma tryParseBufferAsJson_leading (buffer : string) :
  (startsWith "{" (trim buffer) || startsWith "[" (trim buffer))%bool = true ->
  tryParseBufferAsJson P (Some buffer) = JSON_parse P (trim buffer).
Proof.
  intros Hlead. unfold tryParseBufferAsJson. rewrite Hlead.
  apply orb_true_iff in Hlead.
  destruct Hlead as [H|H]; apply startsWith_nonempty in H; try discriminate;
    now rewrite H.
Qed.

(** C6, as amended.  The classifier decides in this order.  (1) A buffer
    whose first character after white space is a brace or a bracket and
    whose text parses to a value with a truthy [error], [detail] or
    [message] is an error carrying that value.  (2) Otherwise a response
    whose content type contains [application/json] is an error carrying
    what the buffer parses to.  (3) Otherwise a response with a status in
    [200,300) and a non-empty buffer is an image, whatever its first
    bytes are.  (4) Otherwise a response whose status is outside
    [200,300), or that has no data, is an opaque error. *)
Theorem classifier_policy (r : AxiosResponse) :
  (forall (buffer : string) (j : JSON),
      data r = Some buffer ->
      (startsWith "{" (trim buffer) || startsWith "[" (trim buffer))%bool = true ->
      JSON_parse P (trim buffer) = Some j ->
      (prop_truthy "error" j || prop_truthy "detail" j || prop_truthy "message" j)%bool
      = true ->
      classify P r = JsonError j)
  /\ (reports_error (tryParseBufferAsJson P (data r)) = false ->
      includes "application/json" (content_type (headers r)) = true ->
      classify P r = JsonContentType (tryParseBufferAsJson P (data r)))
  /\ (forall buffer : string,
        reports_error (tryParseBufferAsJson P (data r)) = false ->
        includes "application/json" (content_type (headers r)) = false ->
        200 <= status r < 300 ->
        data r = Some buffer ->
        buffer <> "" ->
        classify P r = Image buffer)
  /\ (reports_error (tryParseBufferAsJson P (data r)) = false ->
      includes "application/json" (content_type (headers r)) = false ->
      status r < 200 \/ 300 <= status r \/ data r = None ->
      classify P r = Opaque).
Proof.
  split; [|split; [|split]].
  - intros buffer j Hdata Hlead Hparse Hfield.
    unfold classify. rewrite Hdata, (tryParseBufferAsJson_leading _ Hlead), Hparse.
    cbn [reports_error]. rewrite Hfield.
    assert (Ht : truthy j = true).
    { apply orb_true_iff in Hfield. destruct Hfield as [H|H].
      - apply orb_true_iff in H. destruct H as [H|H]; eapply prop_truthy_truthy; eauto.
      - eapply prop_truthy_truthy; eauto. }
    rewrite Ht. reflexivity.
  - intros Herr Hct. unfold classify.
    destruct (tryParseBufferAsJson P (data r)) as [j|]; rewrite ?Herr, Hct; reflexivity.
  - intros buffer Herr Hct Hstatus Hdata _. unfold classify.
    assert (Hok : ((200 <=? status r) && (status r <? 300) && present (data r))%bool = true).
    { rewrite Hdata. cbn [present]. rewrite andb_true_r.
      apply andb_true_iff. split; [apply Z.leb_le|apply Z.ltb_lt]; lia. }
    destruct (tryParseBufferAsJson P (data r)) as [j|]; rewrite ?Herr, Hct, Hok, Hdata;
      reflexivity.
  - intros Herr Hct Hout. unfold classify.
    assert (Hno : ((200 <=? status r) && (status r <? 300) && present (data r))%bool = false).
    { destruct Hout as [H|[H|H]].
      - apply andb_false_iff. left. apply andb_false_iff. left. apply Z.leb_gt. lia.
      - apply andb_false_iff. left. apply andb_false_iff. right. apply Z.ltb_ge. lia.
      - rewrite H. cbn [present]. apply andb_false_r. }
    destruct (tryParseBufferAsJson P (data r)) as [j|]; rewrite ?Herr, Hct, Hno;
      reflexivity.
Qed.

(** The signature checks of the image branch decide nothing: a response
    the classifier calls an image is accepted with its buffer, and the
    loop stops. *)
Lemma image_accepted_whatever_signature (modelId : string) (r : AxiosResponse)
  (l : Locals) (buffer : string) :
  classify P r = Image buffer ->
  inspect P modelId r l
  = (Break, mkLocals (lastError l) (Some buffer) (Some (headers r))).
Proof. intros H. rewrite inspect_classify, H. reflexivity. Qed.

End Classifier.

Section ClassifierExamples.
Import JS Effects Mongoose Server ThumbnailController Examples.

(** One response for each branch of the policy. *)
Lemma classifier_policy_witness :
  classify node limited429 = JsonError (JObject [("error", JString "Rate limit reached")])
  /\ classify node loading503
     = JsonContentType (Some (JObject [("estimated_time", JNumber (20 # 1))]))
  /\ classify node webp200 = Image "RIFF....WEBP"
  /\ classify node notfound404 = Opaque.
Proof.
  split; [|split; [|split]].
  - apply (proj1 (classifier_policy node limited429)
             (json_member "error" (quoted "Rate limit reached")));
      vm_compute; reflexivity.
  - exact (proj1 (proj2 (classifier_policy node loading503)) eq_refl eq_refl).
  - apply (proj1 (proj2 (proj2 (classifier_policy node webp200))));
      try (vm_compute; reflexivity).
    + cbn. lia.
    + discriminate.
  - apply (proj2 (proj2 (proj2 (classifier_policy node notfound404))));
      try (vm_compute; reflexivity).
    right. left. cbn. lia.
Defined.

(** C6 as stated fails: this buffer starts with a brace and parses to a
    JSON object that has an [error] field, and the response is classified
    as an image, not as an error. *)
Lemma null_error_field_is_accepted_as_image :
  data null_error200 = Some (json_member "error" "null")
  /\ startsWith "{" (trim (json_member "error" "null")) = true
  /\ JSON_parse node (trim (json_member "error" "null")) = Some (JObject [("error", JNull)])
  /\ prop "error" (JObject [("error", JNull)]) = Some JNull
  /\ classify node null_error200 = Image (json_member "error" "null").
Proof. repeat split; vm_compute; reflexivity. Defined.

(** A success status with an empty buffer is accepted as an image too:
    the test of line 166 is on the buffer object, which is truthy. *)
Lemma empty_buffer_is_accepted_as_image :
  classify node empty204 = Image "".
Proof. vm_compute. reflexivity. Qed.

End ClassifierExamples.


(* ================================================================== *)
(** * The prompt composer *)
(* ================================================================== *)

Section PromptComposer.
Import JS Effects Mongoose Server ThumbnailController PromptSpec.

Variable P : Platform.

Lemma append_assoc (a b c : string) : (a ++ b) ++ c = a ++ (b ++ c).
Proof. induction a as [|x a IH]; cbn; [reflexivity|now rewrite IH]. Qed.

(** The composer's output for any input, as the segments in order. *)
Lemma buildPrompt_segments (title style : string) (color_scheme user_prompt : option string)
  (aspect_ratio : string) :
  buildPrompt P title style color_scheme user_prompt aspect_ratio
  = style_and_title (interpolate (inherited P) stylePrompts style) title
    ++ color_sentence (color_text P color_scheme)
    ++ details_sentence user_prompt
    ++ framing aspect_ratio.
Proof.
  unfold buildPrompt, style_and_title, color_sentence, color_text, details_sentence,
    given, framing, truthy_str.
  destruct color_scheme as [c|]; [destruct (String.eqb c "")|];
    (destruct user_prompt as [u|]; [destruct (String.eqb u "")|]);
    cbn [negb]; rewrite ?append_assoc; cbn [append]; rewrite ?append_assoc;
    reflexivity.
Qed.

Lemma in_order_skip (parts : list string) (pre s : string) :
  in_order parts s -> in_order parts (pre ++ s).
Proof.
  destruct parts as [|p rest]; [trivial|].
  intros (before & after & -> & Hrest).
  exists (pre ++ before), after. split; [now rewrite append_assoc|exact Hrest].
Qed.

Lemma in_order_here (p : string) (rest : list string) (s : string) :
  in_order rest s -> in_order (p :: rest) (p ++ s).
Proof. intros H. exists "", s. split; [reflexivity|exact H]. Qed.

(** A key of the colour table is a non-empty string. *)
Lemma own_color_given (c d : string) :
  own colorSchemeDescriptions c = Some d -> given (Some c) = Some c.
Proof.
  unfold given. destruct (String.eqb_spec c "") as [->|_]; [discriminate|reflexivity].
Qed.

Lemma color_text_valid (color_scheme : option string) :
  valid_color color_scheme ->
  color_text P color_scheme = color_description color_scheme.
Proof.
  unfold valid_color, color_text, color_description.
  destruct color_scheme as [c|]; [|reflexivity].
  destruct (own colorSchemeDescriptions c) as [d|] eqn:Hown; [intros _|congruence].
  rewrite (own_color_given _ Hown). unfold interpolate. now rewrite Hown.
Qed.

Lemma framing_parts (aspect_ratio : string) :
  framing aspect_ratio
  = "The thumbnail should be " ++ aspect_ratio
    ++ ", visually stunning, and designed to " ++ "maximize click-through"
    ++ " rate. Make it bold, professional, and impossible to ignore.".
Proof. reflexivity. Qed.

Ltac walk_in_order :=
  repeat first [ exact I | apply in_order_here | apply in_order_skip ].

(** C8.  For a title, a style of the style table, a colour scheme that is
    absent or in the colour table, a free text and an aspect ratio, the
    composer's prompt is, whatever the platform, the concatenation of the
    style description with the title, the colour description if a colour
    scheme is given, the free text if given, and the framing suffix with
    the aspect ratio; so the style description, the title, the colour
    description (if given), the free text (if given), the aspect ratio
    and the click-through phrase occur in it in this order. *)
Theorem prompt_composed_in_fixed_order
  (title style description : string) (color_scheme user_prompt : option string)
  (aspect_ratio : string) :
  own stylePrompts style = Some description ->
  valid_color color_scheme ->
  buildPrompt P title style color_scheme user_prompt aspect_ratio
  = style_and_title description title
    ++ color_sentence (color_description color_scheme)
    ++ details_sentence user_prompt
    ++ framing aspect_ratio
  /\ in_order
       ([description; title] ++ optional (color_description color_scheme)
        ++ optional (given user_prompt) ++ [aspect_ratio; "maximize click-through"])
       (buildPrompt P title style color_scheme user_prompt aspect_ratio).
Proof.
  intros Hstyle Hcolor.
  rewrite buildPrompt_segments, (color_text_valid _ Hcolor).
  unfold interpolate. rewrite Hstyle.
  split; [reflexivity|].
  unfold style_and_title, color_sentence, details_sentence.
  rewrite framing_parts.
  destruct (color_description color_scheme) as [d|];
    destruct (given user_prompt) as [u|];
    cbn [optional app]; rewrite !append_assoc; walk_in_order.
Qed.

(** C9, as amended.  For a style that is not a key of the style table
    (and not the name of a property every object inherits) the composer
    does not fail: it returns the prompt with the text [undefined] in the
    place of the style description. *)
Theorem unknown_style_composes_undefined
  (title style : string) (color_scheme user_prompt : option string)
  (aspect_ratio : string) :
  own stylePrompts style = None ->
  inherited P style = None ->
  buildPrompt P title style color_scheme user_prompt aspect_ratio
  = style_and_title "undefined" title
    ++ color_sentence (color_text P color_scheme)
    ++ details_sentence user_prompt
    ++ framing aspect_ratio.
Proof.
  intros Hown Hinh. rewrite buildPrompt_segments.
  unfold interpolate at 1. now rewrite Hown, Hinh.
Qed.

End PromptComposer.

Section PromptComposerExamples.
Import JS Effects Mongoose Server ThumbnailController PromptSpec Examples.

(** The prompt of a request with the style [Minimalist], the colour
    scheme [neon] and a free text. *)
Lemma prompt_composed_in_fixed_order_witness :
  buildPrompt node "My Video" "Minimalist" (Some "neon") (Some "with a red arrow") "16:9"
  = style_and_title
      "minimalist thumbnail, clean layout, simple shapes, limited color palette, plenty of negative space, modern flat design, clear focal point"
      "My Video"
    ++ color_sentence (color_description (Some "neon"))
    ++ details_sentence (Some "with a red arrow")
    ++ framing "16:9"
  /\ in_order
       ([ "minimalist thumbnail, clean layout, simple shapes, limited color palette, plenty of negative space, modern flat design, clear focal point";
          "My Video" ]
        ++ optional (color_description (Some "neon"))
        ++ optional (given (Some "with a red arrow"))
        ++ ["16:9"; "maximize click-through"])
       (buildPrompt node "My Video" "Minimalist" (Some "neon") (Some "with a red arrow")
          "16:9").
Proof.
  apply (@prompt_composed_in_fixed_order node "My Video" "Minimalist" _ (Some "neon")
           (Some "with a red arrow") "16:9").
  - reflexivity.
  - cbn. discriminate.
Defined.

(** The prompt of a request whose style is not in the table. *)
Lemma unknown_style_composes_undefined_witness :
  buildPrompt node "My Video" "Cartoon" None None "16:9"
  = style_and_title "undefined" "My Video"
    ++ color_sentence (color_text node None)
    ++ details_sentence None
    ++ framing "16:9".
Proof.
  apply (@unknown_style_composes_undefined node "My Video" "Cartoon" None None "16:9");
    reflexivity.
Defined.

(** C9 as stated fails: [Cartoon] is not a key of the style table, and
    the composer returns a prompt that asks for [a undefined]. *)
Lemma unknown_style_does_not_fail :
  own stylePrompts "Cartoon" = None
  /\ buildPrompt node "My Video" "Cartoon" None None "16:9"
     = "Create a undefined for: " ++ dquote ++ "My Video" ++ dquote
       ++ " The thumbnail should be 16:9, visually stunning, and designed to maximize click-through rate. Make it bold, professional, and impossible to ignore.".
Proof. split; vm_compute; reflexivity. Defined.

End PromptComposerExamples.


(* ================================================================== *)
(** * The generation handler *)
(* ================================================================== *)

Section Orchestrator.
Import JS Effects Mongoose Server ThumbnailController.

Variable P : Platform.
Variable W : World.

Lemma fail_without_image_run (l : Locals) (s : State) (t : Thumbnail) :
  thumbnail s = Some t ->
  fail_without_image W l s
  = match save_fault W (saves s) (set_isGenerating false t) with
    | None =>
        (Returned
           (mkResponse 502
              (NoImage "Failed to generate image from Hugging Face models"
                 (lastError l) (hfResponseHeaders l))),
         saved s (set_isGenerating false t) true)
    | Some e => (Threw e, saved s (set_isGenerating false t) false)
    end.
Proof.
  intros Ht. unfold fail_without_image, bind, assign, save, ret, saved.
  rewrite Ht. cbn.
  destruct (save_fault W (saves s) (set_isGenerating false t)); reflexivity.
Qed.

Lemma on_unexpected_run (error : Thrown) (s : State) (t : Thumbnail) :
  thumbnail s = Some t ->
  on_unexpected P W error s
  = match save_fault W (saves s) (set_isGenerating false t) with
    | None => (Returned (report_unexpected P error), saved s (set_isGenerating false t) true)
    | Some e => (Threw e, saved s (set_isGenerating false t) false)
    end.
Proof.
  intros Ht. unfold on_unexpected, bind, get, assign, save, ret, saved.
  rewrite Ht. cbn. rewrite Ht. cbn.
  destruct (save_fault W (saves s) (set_isGenerating false t)); reflexivity.
Qed.

Lemma on_unexpected_no_record (error : Thrown) (s : State) :
  thumbnail s = None ->
  on_unexpected P W error s = (Returned (report_unexpected P error), s).
Proof.
  intros Ht. unfold on_unexpected, bind, get, ret. rewrite Ht. reflexivity.
Qed.

Lemma upload_and_finish_run (buffer : string) (s : State) (t : Thumbnail) :
  thumbnail s = Some t ->
  upload_and_finish W buffer s
  = match upload W buffer (filename W) with
    | inl e =>
        match save_fault W (saves s) (set_isGenerating false t) with
        | None =>
            (Returned (mkResponse 500
                         (UploadFailed "Image upload failed" (message_or_self e))),
             saved (uploaded s (buffer, filename W)) (set_isGenerating false t) true)
        | Some e' =>
            (Threw e', saved (uploaded s (buffer, filename W)) (set_isGenerating false t) false)
        end
    | inr url =>
        let doc := set_isGenerating false (set_image_url url t) in
        match save_fault W (saves s) doc with
        | None =>
            (Returned (mkResponse 200 (Generated "Thumbnail Generated" doc)),
             saved (uploaded s (buffer, filename W)) doc true)
        | Some e =>
            let s1 := saved (uploaded s (buffer, filename W)) doc false in
            match save_fault W (S (saves s)) (set_isGenerating false doc) with
            | None =>
                (Returned (mkResponse 500
                             (UploadFailed "Image upload failed" (message_or_self e))),
                 saved s1 (set_isGenerating false doc) true)
            | Some e' => (Threw e', saved s1 (set_isGenerating false doc) false)
            end
        end
    end.
Proof.
  intros Ht.
  unfold upload_and_finish, try_catch, bind, imagekit_upload, assign, save, get, ret,
    throw, saved, uploaded.
  fold (filename W).
  destruct (upload W buffer (filename W)) as [e|url]; cbn; rewrite Ht; cbn.
  - destruct (save_fault W (saves s) (set_isGenerating false t)); reflexivity.
  - destruct (save_fault W (saves s) (set_isGenerating false (set_image_url url t)));
      cbn; [|reflexivity].
    destruct (save_fault W (S (saves s))
                (set_isGenerating false (set_isGenerating false (set_image_url url t))));
      reflexivity.
Qed.

(** The last step of the outer [catch] sends a message or a router
    error, never a record. *)
Lemma report_unexpected_body (error : Thrown) :
  (exists m : option string, body (report_unexpected P error) = Message m)
  \/ (exists (m : string) (j : JSON), body (report_unexpected P error) = RouterError m j).
Proof.
  unfold report_unexpected.
  destruct (response error) as [r|]; [|left; eexists; reflexivity].
  destruct (present (error_data r)); [|left; eexists; reflexivity].
  destruct (tryParseBufferAsJson P (error_data r)) as [j|]; [|left; eexists; reflexivity].
  destruct (truthy j); [right|left]; repeat eexists; reflexivity.
Qed.

(** The handler once the document is created: the loop, then one of the
    two endings, then the outer [catch] if the ending throws. *)
Lemma generateThumbnail_created (req : Request) (id : string) :
  create W req = inr id ->
  exists (l : Locals) (n : nat),
    let s1 := logged (pending req id)
                (map (call_of (prompt_of P req)) (firstn n modelsToTry)) in
    tryModels P W modelsToTry (prompt_of P req) (mkLocals None None None) (pending req id)
    = (Returned l, s1)
    /\ generateThumbnail P W req initial
       = match
           match finalBuffer l with
           | None => fail_without_image W l s1
           | Some buffer => upload_and_finish W buffer s1
           end
         with
         | (Returned r, s') => (Returned r, s')
         | (Threw e, s') => on_unexpected P W e s'
         end.
Proof.
  intros Hcreate.
  destruct (tryModels_prefix P W modelsToTry (prompt_of P req) (mkLocals None None None)
              (pending req id)) as (l & n & Hloop).
  exists l, n. split; [exact Hloop|].
  unfold generateThumbnail, try_catch, bind at 1, Thumbnail_create.
  rewrite Hcreate. cbn [initial saves calls uploads].
  fold (pending req id). fold (prompt_of P req).
  unfold bind. rewrite Hloop.
  destruct (finalBuffer l); reflexivity.
Qed.

(** A request whose document cannot be created leaves no record. *)
Lemma generateThumbnail_not_created (req : Request) (e : Thrown) :
  create W req = inl e ->
  generateThumbnail P W req initial = (Returned (report_unexpected P e), initial).
Proof.
  intros Hcreate.
  unfold generateThumbnail, try_catch, bind at 1, Thumbnail_create.
  rewrite Hcreate. now rewrite on_unexpected_no_record.
Qed.

Lemma finished_not_generating (t : Thumbnail) :
  isGenerating t = false -> finished t.
Proof.
  unfold finished, completion. intros ->.
  destruct (image_url t) as [url|]; [right; now exists url|now left].
Qed.

Lemma settled_unexpected (error : Thrown) (t : Thumbnail) :
  settled (report_unexpected P error) (set_isGenerating false t).
Proof.
  split; [reflexivity|]. split; [now apply finished_not_generating|].
  destruct (report_unexpected_body error) as [(m & Hb)|(m & j & Hb)];
    split; intros; rewrite Hb in *; discriminate.
Qed.

Ltac settle Hrun Hstored :=
  injection Hrun as <- <-; cbn in Hstored; injection Hstored as <-;
  first
    [ apply settled_unexpected
    | split; [reflexivity|]; split; [now apply finished_not_generating|];
      split; intros; cbn in *;
      first [ discriminate
            | match goal with
              | H : Generated _ _ = Generated _ _ |- _ => injection H as <- <-
              | H : NoImage _ _ _ = NoImage _ _ _ |- _ => clear H
              end;
              repeat split; try reflexivity; eexists; reflexivity ] ].

(** C2.  When the handler produces a response and a record was created
    for the request, the stored record is not in progress: it is failed
    (no image URL) or succeeded (an image URL), on every path -- no
    model gave an image, the upload failed, the upload succeeded, or an
    exception was caught after the record's creation.  A response that
    carries the record carries the stored one, has code 200 and goes with
    a succeeded record; the response that reports that no model gave an
    image has code 502 and goes with a failed record. *)
Theorem completed_request_finalizes_record
  (req : Request) (resp : Response) (s : State) (doc : Thumbnail) :
  generateThumbnail P W req initial = (Returned resp, s) ->
  stored s = Some doc ->
  settled resp doc.
Proof.
  intros Hrun Hstored.
  destruct (create W req) as [e|id] eqn:Hcreate.
  { rewrite (generateThumbnail_not_created _ Hcreate) in Hrun.
    injection Hrun as <- <-. discriminate. }
  destruct (generateThumbnail_created _ Hcreate) as (l & n & _ & Hgen).
  rewrite Hgen in Hrun. clear Hgen.
  set (s1 := logged _ _) in Hrun.
  assert (Ht : thumbnail s1 = Some (new_document req id)) by reflexivity.
  destruct (finalBuffer l) as [buffer|].
  - rewrite (@upload_and_finish_run buffer s1 _ Ht) in Hrun.
    destruct (upload W buffer (filename W)) as [e|url].
    + destruct (save_fault W (saves s1) _) as [e'|]; [|settle Hrun Hstored].
      erewrite on_unexpected_run in Hrun by reflexivity.
      destruct (save_fault W _ _); [discriminate|]. settle Hrun Hstored.
    + cbv zeta in Hrun.
      destruct (save_fault W (saves s1) _) as [e|]; [|settle Hrun Hstored].
      destruct (save_fault W (S (saves s1)) _) as [e'|]; [|settle Hrun Hstored].
      erewrite on_unexpected_run in Hrun by reflexivity.
      destruct (save_fault W _ _); [discriminate|]. settle Hrun Hstored.
  - rewrite (@fail_without_image_run l s1 _ Ht) in Hrun.
    destruct (save_fault W (saves s1) _) as [e|]; [|settle Hrun Hstored].
    erewrite on_unexpected_run in Hrun by reflexivity.
    destruct (save_fault W _ _); [discriminate|]. settle Hrun Hstored.
Qed.

(** When no candidate's answer is accepted, the loop returns with no
    image, and the last error is the one recorded for the last candidate
    it called. *)
Lemma tryModels_no_image (models : list string) (prompt : string) (l : Locals)
  (s : State) :
  models <> [] ->
  (forall m : string, In m models -> accepted P W m prompt = None) ->
  exists (l' : Locals) (pre : list string) (e : LastError),
    tryModels P W models prompt l s
    = (Returned l', logged s (map (call_of prompt) (pre ++ [model_of e])))
    /\ finalBuffer l' = finalBuffer l
    /\ lastError l' = Some e
    /\ recorded P W (model_of e) prompt = Some e.
Proof.
  revert l s. induction models as [|m rest IH]; intros l s Hne Hnone; [congruence|].
  assert (Hm : accepted P W m prompt = None) by (apply Hnone; now left).
  destruct (@turn_recorded P W m prompt l Hm) as (e & Hrec & Hmodel & Hlast & Hbuf).
  destruct (moves_on P W m prompt) eqn:Hgo.
  - rewrite (@tryModels_next P W m rest prompt l s Hgo).
    destruct rest as [|m' rest'].
    + exists (snd (turn P W m prompt l)), [], e.
      cbn [tryModels app map]. rewrite Hmodel. unfold ret.
      repeat split; assumption.
    + destruct (IH (snd (turn P W m prompt l)) (logged s [call_of prompt m]))
        as (l' & pre & e' & Hrun & Hbuf' & Hlast' & Hrec').
      * discriminate.
      * intros x Hx. apply Hnone. now right.
      * exists l', (m :: pre), e'. rewrite Hrun, logged_logged.
        repeat split; try assumption. now rewrite Hbuf'.
  - rewrite (@tryModels_stop P W m rest prompt l s Hgo).
    exists (snd (turn P W m prompt l)), [], e.
    cbn [app map]. rewrite Hmodel. repeat split; assumption.
Qed.

(** C4, as amended.  When the record is created, no candidate's answer
    is accepted as an image and the save of the failed record succeeds,
    the handler stores the record as failed (not in progress, no image
    URL) and answers 502 with the last error: the one recorded for the
    last candidate it called. *)
Theorem no_image_answers_502 (req : Request) (id : string) :
  create W req = inr id ->
  (forall m : string, In m modelsToTry -> accepted P W m (prompt_of P req) = None) ->
  save_fault W 0 (set_isGenerating false (new_document req id)) = None ->
  exists (e : LastError) (h : option (list (string * string))) (pre : list string)
         (s : State) (doc : Thumbnail),
    generateThumbnail P W req initial
    = (Returned
         (mkResponse 502
            (NoImage "Failed to generate image from Hugging Face models" (Some e) h)),
       s)
    /\ stored s = Some doc
    /\ completion doc = Some Failed
    /\ calls s = map (call_of (prompt_of P req)) (pre ++ [model_of e])
    /\ recorded P W (model_of e) (prompt_of P req) = Some e.
Proof.
  intros Hcreate Hnone Hsave.
  destruct (generateThumbnail_created _ Hcreate) as (l & n & Hloop & Hgen).
  destruct (@tryModels_no_image modelsToTry (prompt_of P req) (mkLocals None None None)
              (pending req id)) as (l' & pre & e & Hrun & Hbuf & Hlast & Hrec).
  { discriminate. }
  { exact Hnone. }
  cbv zeta in Hloop, Hgen. rewrite Hrun in Hloop.
  injection Hloop as <- Hs. rewrite <- Hs in Hgen. clear Hs.
  cbn [finalBuffer] in Hbuf. rewrite Hbuf in Hgen.
  erewrite fail_without_image_run in Hgen by reflexivity.
  cbn [logged pending saves] in Hgen. rewrite Hsave, Hlast in Hgen.
  exists e, (hfResponseHeaders l'), pre. eexists. eexists.
  split; [exact Hgen|]. repeat split; reflexivity || exact Hrec.
Qed.

(** The successful ending.  When the record is created, the loop accepts
    an image, the upload returns a URL and the save of the record
    succeeds, the handler uploads that image once, stores the record with
    the URL and not in progress, and answers 200 with the stored record. *)
Theorem accepted_image_is_finalized
  (req : Request) (id : string) (l : Locals) (s1 : State) (buffer url : string) :
  create W req = inr id ->
  tryModels P W modelsToTry (prompt_of P req) (mkLocals None None None) (pending req id)
  = (Returned l, s1) ->
  finalBuffer l = Some buffer ->
  upload W buffer (filename W) = inr url ->
  save_fault W 0 (set_isGenerating false (set_image_url url (new_document req id))) = None ->
  exists (s : State) (doc : Thumbnail),
    generateThumbnail P W req initial
    = (Returned (mkResponse 200 (Generated "Thumbnail Generated" doc)), s)
    /\ stored s = Some doc
    /\ image_url doc = Some url
    /\ isGenerating doc = false
    /\ uploads s = [(buffer, filename W)].
Proof.
  intros Hcreate Hloop Hbuf Hup Hsave.
  destruct (generateThumbnail_created _ Hcreate) as (l0 & n & Hloop0 & Hgen).
  cbv zeta in Hloop0, Hgen. rewrite Hloop in Hloop0.
  injection Hloop0 as <- Hs.
  assert (Ht : thumbnail s1 = Some (new_document req id)) by (rewrite Hs; reflexivity).
  assert (Hn : saves s1 = 0%nat) by (rewrite Hs; reflexivity).
  assert (Hu : uploads s1 = []) by (rewrite Hs; reflexivity).
  rewrite <- Hs, Hbuf in Hgen.
  rewrite (@upload_and_finish_run buffer s1 _ Ht), Hup in Hgen.
  cbv zeta in Hgen. rewrite Hn, Hsave in Hgen.
  eexists _, _. split; [exact Hgen|].
  cbn. rewrite Hu. repeat split.
Qed.

End Orchestrator.

Section OrchestratorExamples.
Import JS Effects Mongoose Server ThumbnailController Examples.

(** Two completed requests: the third model gives an image; no model
    gives one and the first save fails, so that the outer [catch]
    finalizes the record. *)
Lemma completed_request_finalizes_record_witness :
  settled (mkResponse 200 (Generated "Thumbnail Generated" generated_record))
    generated_record
  /\ settled (mkResponse 500 (Message (Some "connection reset"))) failed_record.
Proof.
  split.
  - eapply (@completed_request_finalizes_record node third_succeeds request);
      vm_compute; reflexivity.
  - eapply (@completed_request_finalizes_record node none_succeeds_flaky request);
      vm_compute; reflexivity.
Defined.

(** No model gives an image and the services are reliable. *)
Lemma no_image_answers_502_witness :
  exists (e : LastError) (h : option (list (string * string))) (pre : list string)
         (s : State) (doc : Thumbnail),
    generateThumbnail node none_succeeds request initial
    = (Returned
         (mkResponse 502
            (NoImage "Failed to generate image from Hugging Face models" (Some e) h)),
       s)
    /\ stored s = Some doc
    /\ completion doc = Some Failed
    /\ calls s = map (call_of (prompt_of node request)) (pre ++ [model_of e])
    /\ recorded node none_succeeds (model_of e) (prompt_of node request) = Some e.
Proof.
  apply (@no_image_answers_502 node none_succeeds request "65f0c0ffee0000000000abcd").
  - reflexivity.
  - intros m [<-|[<-|[<-|[]]]]; vm_compute; reflexivity.
  - reflexivity.
Defined.

(** C4 as stated fails: no candidate gives an accepted image, the save of
    the failed record fails, and the answer is 500, not 502. *)
Lemma failed_save_answers_500 :
  map (fun m => accepted node none_succeeds_flaky m (prompt_of node request)) modelsToTry
  = [None; None; None]
  /\ fst (generateThumbnail node none_succeeds_flaky request initial)
     = Returned (mkResponse 500 (Message (Some "connection reset"))).
Proof. split; vm_compute; reflexivity. Defined.

(** The first model gives an image and the services are reliable. *)
Lemma accepted_image_is_finalized_witness :
  exists (s : State) (doc : Thumbnail),
    generateThumbnail node first_succeeds request initial
    = (Returned (mkResponse 200 (Generated "Thumbnail Generated" doc)), s)
    /\ stored s = Some doc
    /\ image_url doc = Some cdn_url
    /\ isGenerating doc = false
    /\ uploads s = [(png, filename first_succeeds)].
Proof.
  eapply (@accepted_image_is_finalized node first_succeeds request
            "65f0c0ffee0000000000abcd" _ _ png cdn_url);
    vm_compute; reflexivity.
Defined.

(** C3 on a request that succeeds.  The first model gives an image, the
    upload returns a URL and the save succeeds: the handler answers 200
    with the stored record, which has the URL and is not in progress; but
    its [prompt_used] is the user's free text it was created with, not the
    prompt that was composed and sent to the model. *)
Theorem success_keeps_user_prompt :
  exists (s : State) (doc : Thumbnail),
    generateThumbnail node first_succeeds request initial
    = (Returned (mkResponse 200 (Generated "Thumbnail Generated" doc)), s)
    /\ stored s = Some doc
    /\ completion doc = Some (Succeeded cdn_url)
    /\ calls s = [call_of (prompt_of node request) first_model]
    /\ prompt_used doc = Some "with a red arrow"
    /\ String.eqb (prompt_of node request) "with a red arrow" = false.
Proof. eexists _, _. repeat split; vm_compute; reflexivity. Qed.

(** When the save that follows a successful upload fails, the inner
    [catch] answers 500, "Image upload failed"; the record its own save
    stores has the URL and is not in progress. *)
Lemma failed_save_after_upload_answers_500 :
  exists s : State,
    generateThumbnail node first_succeeds_flaky request initial
    = (Returned (mkResponse 500 (UploadFailed "Image upload failed" (inl "connection reset"))),
       s)
    /\ stored s = Some generated_record
    /\ completion generated_record = Some (Succeeded cdn_url).
Proof. eexists. repeat split; vm_compute; reflexivity. Qed.

End OrchestratorExamples.


(* ================================================================== *)
(** * The delete handler *)
(* ================================================================== *)

Section Delete.
Import JS Effects Mongoose Server ThumbnailController.

Variable D : Driver.

(** The query of the handler is the query by the id alone. *)
Lemma delete_query_is_by_id (req : Request) :
  castObjectId (Object [("_id", params_id req); ("userId", session_userId req)])
  = Some (params_id req).
Proof. reflexivity. Qed.

(** The requesting user plays no part in what the handler deletes or
    answers. *)
Lemma deleteThumbnail_ignores_user (r1 r2 : Request) (coll : list Thumbnail) :
  params_id r1 = params_id r2 ->
  deleteThumbnail D r1 coll = deleteThumbnail D r2 coll.
Proof.
  intros Hid.
  unfold deleteThumbnail, try_catch, bind, findByIdAndDelete.
  rewrite !delete_query_is_by_id, Hid. reflexivity.
Qed.

(** When the query does not fail, the answer is the confirmation, whether
    or not a record of that id exists. *)
Lemma deleteThumbnail_confirms (req : Request) (coll : list Thumbnail) :
  fault D (params_id req) = None ->
  deleteThumbnail D req coll
  = (Returned (mkResponse 200 (Message (Some "Thumbnail Deleted Successfully"))),
     snd (findOneAndDelete (params_id req) coll)).
Proof.
  intros Hok.
  unfold deleteThumbnail, try_catch, bind, findByIdAndDelete, ret.
  rewrite delete_query_is_by_id, Hok.
  destruct (findOneAndDelete (params_id req) coll); reflexivity.
Qed.

End Delete.

Section DeleteExamples.
Import JS Effects Mongoose Server ThumbnailController Examples.

(** C7 on a request of another user.  The collection holds one record,
    owned by Alice; Bob asks for its deletion: the handler answers with
    the confirmation and the record is gone. *)
Theorem delete_removes_record_of_other_user :
  userId alice_record = "alice"
  /\ session_userId bob_deletes_alice = "bob"
  /\ params_id bob_deletes_alice = _id alice_record
  /\ deleteThumbnail healthy bob_deletes_alice [alice_record]
     = (Returned (mkResponse 200 (Message (Some "Thumbnail Deleted Successfully"))), []).
Proof. repeat split. Qed.

(** The confirmation for an id no record has and for an id a record
    has. *)
Lemma deleteThumbnail_confirms_witness :
  deleteThumbnail healthy bob_deletes_alice []
  = (Returned (mkResponse 200 (Message (Some "Thumbnail Deleted Successfully"))),
     snd (findOneAndDelete (params_id bob_deletes_alice) []))
  /\ deleteThumbnail healthy bob_deletes_alice [alice_record]
     = (Returned (mkResponse 200 (Message (Some "Thumbnail Deleted Successfully"))),
        snd (findOneAndDelete (params_id bob_deletes_alice) [alice_record])).
Proof.
  split.
  - apply (@deleteThumbnail_confirms healthy bob_deletes_alice []). reflexivity.
  - apply (@deleteThumbnail_confirms healthy bob_deletes_alice [alice_record]).
    reflexivity.
Defined.

End DeleteExamples.


(* ================================================================== *)
(** * The single-model controller *)
(* ================================================================== *)

Section Sdk.
Import JS Effects Mongoose Server.

Variable W : SdkController.World.

(** C10.  In the single-model controller, when an exception is thrown
    after the record is created -- by the inference call, by the upload
    or by the save -- the handler answers 500 with the exception's
    message and the stored record is the one that was created: in
    progress, with no image URL. *)
Theorem sdk_failure_leaves_record_in_progress (req : Request) (id : string) (e : Thrown) :
  create (SdkController.services W) req = inr id ->
  SdkController.ThrownAfterCreate W req id e ->
  exists s : State,
    SdkController.generateThumbnail W req initial
    = (Returned (mkResponse 500 (Message (message e))), s)
    /\ stored s = Some (new_document req id)
    /\ isGenerating (new_document req id) = true
    /\ image_url (new_document req id) = None.
Proof.
  intros Hcreate Hfail.
  unfold SdkController.generateThumbnail, try_catch, bind, Thumbnail_create,
    SdkController.client_textToImage, imagekit_upload, assign, save, get, ret.
  rewrite Hcreate. cbn [initial saves calls uploads thumbnail stored].
  fold (SdkController.prompt_of W req).
  destruct Hfail as [Hinf|blob Hinf Hup|blob url Hinf Hup Hsave]; rewrite Hinf.
  - eexists. repeat split.
  - fold (SdkController.buffer_of W blob). fold (SdkController.filename W).
    rewrite Hup. eexists. repeat split.
  - fold (SdkController.buffer_of W blob). fold (SdkController.filename W).
    rewrite Hup. cbn [thumbnail stored saves calls uploads].
    fold (SdkController.finalized W req id url). rewrite Hsave.
    eexists. repeat split.
Qed.

(** The sibling stores the composed prompt on success. *)
Lemma sdk_success_stores_prompt (req : Request) (id url : string)
  (imageBlob : SdkController.ImageBlob) :
  create (SdkController.services W) req = inr id ->
  SdkController.textToImage W "black-forest-labs/FLUX.1-schnell" (SdkController.prompt_of W req)
  = inr imageBlob ->
  upload (SdkController.services W) (SdkController.buffer_of W imageBlob) (SdkController.filename W) = inr url ->
  save_fault (SdkController.services W) 0 (SdkController.finalized W req id url) = None ->
  exists s : State,
    SdkController.generateThumbnail W req initial
    = (Returned
         (mkResponse 200
            (Generated "Thumbnail Generated" (SdkController.finalized W req id url))),
       s)
    /\ stored s = Some (SdkController.finalized W req id url)
    /\ prompt_used (SdkController.finalized W req id url)
       = Some (SdkController.prompt_of W req).
Proof.
  intros Hcreate Hinf Hup Hsave.
  unfold SdkController.generateThumbnail, try_catch, bind, Thumbnail_create,
    SdkController.client_textToImage, imagekit_upload, assign, save, get, ret.
  rewrite Hcreate. cbn [initial saves calls uploads thumbnail stored].
  fold (SdkController.prompt_of W req). rewrite Hinf.
  fold (SdkController.buffer_of W imageBlob). fold (SdkController.filename W).
  rewrite Hup. cbn [thumbnail stored saves calls uploads].
  fold (SdkController.finalized W req id url). rewrite Hsave.
  eexists. repeat split.
Qed.

End Sdk.

Section SdkExamples.
Import JS Effects Mongoose Server Examples.

(** The three failures: of the inference call, of the upload, of the
    save. *)
Lemma sdk_failure_leaves_record_in_progress_witness :
  (exists s : State,
      SdkController.generateThumbnail sdk_inference_fails request initial
      = (Returned (mkResponse 500 (Message (message timeout_error))), s)
      /\ stored s = Some (new_document request "65f0c0ffee0000000000abcd")
      /\ isGenerating (new_document request "65f0c0ffee0000000000abcd") = true
      /\ image_url (new_document request "65f0c0ffee0000000000abcd") = None)
  /\ (exists s : State,
      SdkController.generateThumbnail sdk_upload_fails request initial
      = (Returned (mkResponse 500 (Message (message upload_error))), s)
      /\ stored s = Some (new_document request "65f0c0ffee0000000000abcd")
      /\ isGenerating (new_document request "65f0c0ffee0000000000abcd") = true
      /\ image_url (new_document request "65f0c0ffee0000000000abcd") = None)
  /\ (exists s : State,
      SdkController.generateThumbnail sdk_save_fails request initial
      = (Returned (mkResponse 500 (Message (message write_error))), s)
      /\ stored s = Some (new_document request "65f0c0ffee0000000000abcd")
      /\ isGenerating (new_document request "65f0c0ffee0000000000abcd") = true
      /\ image_url (new_document request "65f0c0ffee0000000000abcd") = None).
Proof.
  split; [|split].
  - apply (@sdk_failure_leaves_record_in_progress sdk_inference_fails request
             "65f0c0ffee0000000000abcd" timeout_error); [reflexivity|].
    apply SdkController.InferenceFails. reflexivity.
  - apply (@sdk_failure_leaves_record_in_progress sdk_upload_fails request
             "65f0c0ffee0000000000abcd" upload_error); [reflexivity|].
    apply (@SdkController.UploadFails _ _ _ _ (SdkController.Blob png)); reflexivity.
  - apply (@sdk_failure_leaves_record_in_progress sdk_save_fails request
             "65f0c0ffee0000000000abcd" write_error); [reflexivity|].
    apply (@SdkController.SaveFails _ _ _ _ (SdkController.Blob png) cdn_url);
      reflexivity.
Defined.

End SdkExamples.


(* ================================================================== *)
(** * More on the JSON helper, the classifier and the loop *)
(* ================================================================== *)

Section LoopCoverage.
Import JS Effects Mongoose Server ThumbnailController.

Variable P : Platform.
Variable W : World.

(** The helper returns a value exactly when there is a buffer whose
    trimmed text starts with a brace or a bracket and [JSON.parse]
    accepts that text; the value is then what [JSON.parse] returns.  For
    missing data, an empty or blank buffer, or any other first character
    it returns [null], whatever [JSON.parse] would do. *)
Theorem tryParseBufferAsJson_some_iff (buf : option string) (j : JSON) :
  tryParseBufferAsJson P buf = Some j
  <-> exists buffer : string,
        buf = Some buffer
        /\ (startsWith "{" (trim buffer) || startsWith "[" (trim buffer))%bool = true
        /\ JSON_parse P (trim buffer) = Some j.
Proof.
  split.
  - unfold tryParseBufferAsJson. destruct buf as [buffer|]; [|discriminate].
    destruct (String.eqb (trim buffer) ""); [discriminate|].
    destruct (startsWith "{" (trim buffer) || startsWith "[" (trim buffer))%bool eqn:Hlead;
      [|discriminate].
    intros Hparse. exists buffer. repeat split; assumption.
  - intros (buffer & -> & Hlead & Hparse).
    now rewrite (@tryParseBufferAsJson_leading P buffer Hlead).
Qed.

(** A response is accepted as an image only with a status in [200,300),
    with data, without a truthy error field in a JSON body and without a
    JSON content type; the accepted buffer is the response's data. *)
Theorem accepted_image_has_success_status (r : AxiosResponse) (buffer : string) :
  classify P r = Image buffer ->
  200 <= status r < 300
  /\ data r = Some buffer
  /\ reports_error (tryParseBufferAsJson P (data r)) = false
  /\ includes "application/json" (content_type (headers r)) = false.
Proof.
  unfold classify.
  assert (Hok : ((200 <=? status r) && (status r <? 300) && present (data r))%bool = true ->
                Image (Buffer_from (data r)) = Image buffer ->
                200 <= status r < 300 /\ data r = Some buffer).
  { intros H [= <-].
    apply andb_true_iff in H. destruct H as [H Hd].
    apply andb_true_iff in H. destruct H as [H1 H2].
    apply Z.leb_le in H1. apply Z.ltb_lt in H2.
    destruct (data r); [|discriminate]. split; [lia|reflexivity]. }
  destruct (tryParseBufferAsJson P (data r)) as [j|].
  - destruct (reports_error (Some j)); [discriminate|].
    destruct (includes "application/json" (content_type (headers r))); [discriminate|].
    destruct ((200 <=? status r) && (status r <? 300) && present (data r))%bool eqn:H;
      [|discriminate].
    intros Himg. destruct (Hok eq_refl Himg) as [Hs Hd].
    split; [exact Hs|]. split; [exact Hd|]. split; reflexivity.
  - destruct (includes "application/json" (content_type (headers r))); [discriminate|].
    destruct ((200 <=? status r) && (status r <? 300) && present (data r))%bool eqn:H;
      [|discriminate].
    intros Himg. destruct (Hok eq_refl Himg) as [Hs Hd].
    split; [exact Hs|]. split; [exact Hd|]. split; reflexivity.
Qed.

Lemma after_turns_app (pre : list string) (m prompt : string) (l : Locals) :
  after_turns P W (pre ++ [m]) prompt l
  = snd (turn P W m prompt (after_turns P W pre prompt l)).
Proof. unfold after_turns. now rewrite fold_left_app. Qed.

(** When every candidate yields an error the loop goes on after (the call
    throws, the error is opaque, or it is a JSON error whose status is
    not a 4xx other than 429), the loop calls all of them, in order,
    accepts no image, and its last error is the one recorded for the last
    candidate. *)
Theorem exhausted_loop_calls_every_candidate
  (models : list string) (prompt : string) (l : Locals) (s : State) :
  Forall (fun m => moves_on P W m prompt = true) models ->
  exists l' : Locals,
    tryModels P W models prompt l s
    = (Returned l', logged s (map (call_of prompt) models))
    /\ finalBuffer l' = finalBuffer l
    /\ (models = [] -> l' = l)
    /\ (forall (pre : list string) (m : string),
          models = (pre ++ [m])%list -> lastError l' = recorded P W m prompt).
Proof.
  intros Hall.
  exists (after_turns P W models prompt l).
  split; [|split; [|split]].
  - rewrite <- (app_nil_r models) at 1.
    now rewrite (@tryModels_app P W models [] prompt l s Hall).
  - now apply after_turns_finalBuffer.
  - now intros ->.
  - intros pre m ->. rewrite after_turns_app.
    assert (Hm : moves_on P W m prompt = true).
    { rewrite Forall_forall in Hall. apply Hall, in_or_app. right. now left. }
    destruct (@turn_recorded P W m prompt (after_turns P W pre prompt l)
                (@moves_on_not_accepted P W m prompt Hm))
      as (e & Hrec & _ & Hlast & _).
    now rewrite Hlast, Hrec.
Qed.

(** What an accepted buffer says of the run: the loop stopped at the
    candidate that gave it, after the candidates before it had all
    failed, and called no candidate after it. *)
Lemma tryModels_accepted_inv (models : list string) (prompt : string) (l l' : Locals)
  (s s' : State) (buffer : string) :
  tryModels P W models prompt l s = (Returned l', s') ->
  finalBuffer l = None ->
  finalBuffer l' = Some buffer ->
  exists (pre : list string) (m : string) (rest : list string),
    models = (pre ++ m :: rest)%list
    /\ Forall (fun x => moves_on P W x prompt = true) pre
    /\ accepted P W m prompt = Some buffer
    /\ s' = logged s (map (call_of prompt) (pre ++ [m])).
Proof.
  revert l s. induction models as [|m rest IH]; intros l s Hrun Hnone Hsome.
  - cbn in Hrun. injection Hrun as <- <-. congruence.
  - destruct (moves_on P W m prompt) eqn:Hgo.
    + rewrite (@tryModels_next P W m rest prompt l s Hgo) in Hrun.
      destruct (@turn_recorded P W m prompt l (@moves_on_not_accepted P W m prompt Hgo))
        as (e & _ & _ & _ & Hbuf).
      destruct (IH _ _ Hrun) as (pre & m' & rest' & -> & Hpre & Hacc & ->).
      { now rewrite Hbuf. }
      { exact Hsome. }
      exists (m :: pre), m', rest'.
      split; [reflexivity|]. split; [now constructor|]. split; [exact Hacc|].
      now rewrite logged_logged.
    + rewrite (@tryModels_stop P W m rest prompt l s Hgo) in Hrun.
      injection Hrun as <- <-.
      destruct (accepted P W m prompt) as [b|] eqn:Hacc.
      * destruct (@turn_accepted P W m prompt b l Hacc) as (_ & Hbuf & _).
        rewrite Hbuf in Hsome. injection Hsome as ->.
        exists [], m, rest.
        split; [reflexivity|]. split; [constructor|]. split; [exact Hacc|reflexivity].
      * destruct (@turn_recorded P W m prompt l Hacc) as (e & _ & _ & _ & Hbuf).
        congruence.
Qed.

(** The buffer the loop returns is the one of the last candidate it
    called: every candidate before it failed, and none after it was
    called. *)
Theorem accepted_buffer_comes_from_last_call
  (models : list string) (prompt : string) (l l' : Locals) (s s' : State)
  (buffer : string) :
  tryModels P W models prompt l s = (Returned l', s') ->
  finalBuffer l = None ->
  finalBuffer l' = Some buffer ->
  exists (pre : list string) (m : string) (rest : list string),
    models = (pre ++ m :: rest)%list
    /\ Forall (fun x => accepted P W x prompt = None) pre
    /\ accepted P W m prompt = Some buffer
    /\ calls s' = (calls s ++ map (call_of prompt) (pre ++ [m]))%list.
Proof.
  intros Hrun Hnone Hsome.
  destruct (@tryModels_accepted_inv _ _ _ _ _ _ _ Hrun Hnone Hsome)
    as (pre & m & rest & Hmodels & Hpre & Hacc & ->).
  exists pre, m, rest.
  split; [exact Hmodels|]. split; [|split; [exact Hacc|reflexivity]].
  eapply Forall_impl; [|exact Hpre]. intros x. apply moves_on_not_accepted.
Qed.

End LoopCoverage.

Section LoopCoverageExamples.
Import JS Effects Mongoose Server ThumbnailController Examples.

(** A PNG answered with status 200. *)
Lemma accepted_image_has_success_status_witness :
  200 <= status image200 < 300
  /\ data image200 = Some png
  /\ reports_error (tryParseBufferAsJson node (data image200)) = false
  /\ includes "application/json" (content_type (headers image200)) = false.
Proof.
  apply (@accepted_image_has_success_status node image200 png).
  vm_compute. reflexivity.
Defined.

(** A 500, a timeout and a 500 again: the three candidates are called. *)
Lemma exhausted_loop_calls_every_candidate_witness :
  exists l' : Locals,
    tryModels node none_succeeds modelsToTry prompt start initial
    = (Returned l', logged initial (map (call_of prompt) modelsToTry))
    /\ finalBuffer l' = finalBuffer start
    /\ (modelsToTry = [] -> l' = start)
    /\ (forall (pre : list string) (m : string),
          modelsToTry = (pre ++ [m])%list ->
          lastError l' = recorded node none_succeeds m prompt).
Proof.
  apply (@exhausted_loop_calls_every_candidate node none_succeeds modelsToTry prompt
           start initial).
  repeat constructor.
Defined.

(** 500, then 429, then an image: the buffer is the third candidate's. *)
Lemma accepted_buffer_comes_from_last_call_witness :
  exists (pre : list string) (m : string) (rest : list string),
    modelsToTry = (pre ++ m :: rest)%list
    /\ Forall (fun x => accepted node third_succeeds x prompt = None) pre
    /\ accepted node third_succeeds m prompt = Some png
    /\ calls (logged initial
                (map (call_of prompt) [first_model; second_model; third_model]))
       = (calls initial ++ map (call_of prompt) (pre ++ [m]))%list.
Proof.
  eapply (@accepted_buffer_comes_from_last_call node third_succeeds modelsToTry prompt
            start _ initial _ png).
  - vm_compute. reflexivity.
  - reflexivity.
  - reflexivity.
Defined.

End LoopCoverageExamples.


(* ================================================================== *)
(** * More on the generation handler *)
(* ================================================================== *)

Section HandlerCoverage.
Import JS Effects Mongoose Server ThumbnailController.

Variable P : Platform.
Variable W : World.

(** When the document cannot be created the handler asks nothing more of
    its collaborators: no record is stored, no model is called, nothing
    is uploaded or saved; it answers through the outer [catch], with 500
    and the error's message when the error carries no HTTP response. *)
Theorem create_failure_touches_nothing (req : Request) (e : Thrown) :
  create W req = inl e ->
  exists resp : Response,
    generateThumbnail P W req initial = (Returned resp, initial)
    /\ (response e = None ->
        resp = mkResponse 500 (Message (Some (message_or_unknown e)))).
Proof.
  intros Hcreate. exists (report_unexpected P e). split.
  - unfold generateThumbnail, try_catch, bind at 1, Thumbnail_create.
    rewrite Hcreate. unfold on_unexpected, bind, get, ret. reflexivity.
  - intros Hnone. unfold report_unexpected. now rewrite Hnone.
Qed.

(** The failed upload: when the loop has accepted a buffer, the upload
    throws and the save succeeds, the handler answers 500, "Image upload
    failed", with the error's message, and stores the record as failed:
    not in progress, no image URL. *)
Theorem upload_failure_answers_500
  (req : Request) (id : string) (l : Locals) (s1 : State) (buffer : string)
  (e : Thrown) :
  create W req = inr id ->
  tryModels P W modelsToTry (prompt_of P req) (mkLocals None None None) (pending req id)
  = (Returned l, s1) ->
  finalBuffer l = Some buffer ->
  upload W buffer (filename W) = inl e ->
  save_fault W 0 (set_isGenerating false (new_document req id)) = None ->
  exists (s : State) (doc : Thumbnail),
    generateThumbnail P W req initial
    = (Returned (mkResponse 500 (UploadFailed "Image upload failed" (message_or_self e))),
       s)
    /\ stored s = Some doc
    /\ completion doc = Some Failed
    /\ uploads s = [(buffer, filename W)].
Proof.
  intros Hcreate Hloop Hbuf Hup Hsave.
  destruct (@generateThumbnail_created P W req id Hcreate) as (l0 & n & Hloop0 & Hgen).
  cbv zeta in Hloop0, Hgen. rewrite Hloop in Hloop0.
  injection Hloop0 as <- Hs.
  assert (Ht : thumbnail s1 = Some (new_document req id)) by (rewrite Hs; reflexivity).
  assert (Hn : saves s1 = 0%nat) by (rewrite Hs; reflexivity).
  assert (Hu : uploads s1 = []) by (rewrite Hs; reflexivity).
  rewrite <- Hs, Hbuf in Hgen.
  rewrite (@upload_and_finish_run W buffer s1 _ Ht), Hup, Hn, Hsave in Hgen.
  eexists _, _. split; [exact Hgen|].
  cbn. rewrite Hu. repeat split.
Qed.

(** Both saves fail: when no candidate's answer is accepted, the save of
    the failed record throws and the save of the outer [catch] throws
    too, the handler itself throws -- no response is sent -- and the
    stored record is the one that was created, still in progress. *)
Theorem double_save_failure_leaves_record_pending
  (req : Request) (id : string) (e e' : Thrown) :
  create W req = inr id ->
  (forall m : string, In m modelsToTry -> accepted P W m (prompt_of P req) = None) ->
  save_fault W 0 (set_isGenerating false (new_document req id)) = Some e ->
  save_fault W 1 (set_isGenerating false (set_isGenerating false (new_document req id)))
  = Some e' ->
  exists s : State,
    generateThumbnail P W req initial = (Threw e', s)
    /\ stored s = Some (new_document req id)
    /\ completion (new_document req id) = Some Pending
    /\ saves s = 2%nat
    /\ uploads s = [].
Proof.
  intros Hcreate Hnone Hsave Hsave'.
  destruct (@generateThumbnail_created P W req id Hcreate) as (l & n & Hloop & Hgen).
  destruct (@tryModels_no_image P W modelsToTry (prompt_of P req) (mkLocals None None None)
              (pending req id)) as (l' & pre & err & Hrun & Hbuf & _).
  { discriminate. }
  { exact Hnone. }
  cbv zeta in Hloop, Hgen. rewrite Hrun in Hloop.
  injection Hloop as <- Hs. rewrite <- Hs in Hgen. clear Hs.
  cbn [finalBuffer] in Hbuf. rewrite Hbuf in Hgen.
  erewrite fail_without_image_run in Hgen by reflexivity.
  cbn [logged pending saves] in Hgen. rewrite Hsave in Hgen.
  erewrite on_unexpected_run in Hgen by reflexivity.
  cbn [saved saves logged pending] in Hgen. rewrite Hsave' in Hgen.
  eexists. split; [exact Hgen|]. repeat split.
Qed.

Ltac bounded_leaf n m buffer Hin Hacc :=
  cbn; split;
  [ exists n; reflexivity
  | split;
    [ first [ left; reflexivity
            | right; exists m, buffer;
              split; [exact Hin|split; [exact Hacc|reflexivity]] ]
    | lia ] ].

(** Whatever the collaborators answer and however the request ends, the
    handler calls the models of the list in order, each at most once and
    with the composed prompt; it uploads nothing unless a model's answer
    was accepted, and then that buffer, once; and it saves at most three
    times. *)
Theorem handler_effects_bounded (req : Request) :
  let s := snd (generateThumbnail P W req initial) in
  (exists n : nat, calls s = map (call_of (prompt_of P req)) (firstn n modelsToTry))
  /\ (uploads s = []
      \/ exists m buffer : string,
           In m modelsToTry
           /\ accepted P W m (prompt_of P req) = Some buffer
           /\ uploads s = [(buffer, filename W)])
  /\ (saves s <= 3)%nat.
Proof.
  cbv zeta.
  destruct (create W req) as [e|id] eqn:Hcreate.
  { rewrite (@generateThumbnail_not_created P W req e Hcreate). cbn.
    split; [exists 0%nat; reflexivity|]. split; [left; reflexivity|lia]. }
  destruct (@generateThumbnail_created P W req id Hcreate) as (l & n & Hloop & Hgen).
  cbv zeta in Hloop, Hgen. rewrite Hgen. clear Hgen.
  destruct (finalBuffer l) as [buffer|] eqn:Hbuf.
  - destruct (@tryModels_accepted_inv P W _ _ _ _ _ _ buffer Hloop eq_refl Hbuf)
      as (pre & m & rest & Hm & _ & Hacc & _).
    assert (Hin : In m modelsToTry).
    { rewrite Hm. apply in_or_app. right. now left. }
    erewrite upload_and_finish_run by reflexivity.
    destruct (upload W buffer (filename W)) as [e|url].
    + destruct (save_fault W _ _) as [e'|]; [|bounded_leaf n m buffer Hin Hacc].
      erewrite on_unexpected_run by reflexivity.
      destruct (save_fault W _ _); bounded_leaf n m buffer Hin Hacc.
    + cbv zeta.
      destruct (save_fault W _ _) as [e|]; [|bounded_leaf n m buffer Hin Hacc].
      destruct (save_fault W _ _) as [e'|]; [|bounded_leaf n m buffer Hin Hacc].
      erewrite on_unexpected_run by reflexivity.
      destruct (save_fault W _ _); bounded_leaf n m buffer Hin Hacc.
  - erewrite fail_without_image_run by reflexivity.
    destruct (save_fault W _ _) as [e|]; [|bounded_leaf n "" "" I I].
    erewrite on_unexpected_run by reflexivity.
    destruct (save_fault W _ _); bounded_leaf n "" "" I I.
Qed.

End HandlerCoverage.

Section HandlerCoverageExamples.
Import JS Effects Mongoose Server ThumbnailController Examples.

(** The store refuses the new document. *)
Lemma create_failure_touches_nothing_witness :
  exists resp : Response,
    generateThumbnail node no_create request initial = (Returned resp, initial)
    /\ (response validation_error = None ->
        resp = mkResponse 500 (Message (Some (message_or_unknown validation_error)))).
Proof.
  apply (@create_failure_touches_nothing node no_create request validation_error).
  reflexivity.
Defined.

(** The first model gives an image and the CDN refuses it. *)
Lemma upload_failure_answers_500_witness :
  exists (s : State) (doc : Thumbnail),
    generateThumbnail node upload_refused request initial
    = (Returned
         (mkResponse 500
            (UploadFailed "Image upload failed" (message_or_self upload_error))),
       s)
    /\ stored s = Some doc
    /\ completion doc = Some Failed
    /\ uploads s = [(png, filename upload_refused)].
Proof.
  eapply (@upload_failure_answers_500 node upload_refused request
            "65f0c0ffee0000000000abcd" _ _ png upload_error);
    vm_compute; reflexivity.
Defined.

(** No model gives an image and the store accepts no save. *)
Lemma double_save_failure_leaves_record_pending_witness :
  exists s : State,
    generateThumbnail node store_down request initial = (Threw write_error, s)
    /\ stored s = Some (new_document request "65f0c0ffee0000000000abcd")
    /\ completion (new_document request "65f0c0ffee0000000000abcd") = Some Pending
    /\ saves s = 2%nat
    /\ uploads s = [].
Proof.
  apply (@double_save_failure_leaves_record_pending node store_down request
           "65f0c0ffee0000000000abcd" write_error write_error).
  - reflexivity.
  - intros m [<-|[<-|[<-|[]]]]; vm_compute; reflexivity.
  - reflexivity.
  - reflexivity.
Defined.

End HandlerCoverageExamples.


(* ================================================================== *)
(** * More on the prompt composers *)
(* ================================================================== *)

Section ComposerCoverage.
Import JS Effects Mongoose Server ThumbnailController PromptSpec.

Variable P : Platform.

(** The composer reads its colour scheme and its free text through
    their truthiness only: an empty string is as good as an absent value. *)
Theorem composer_reads_given_values
  (title style : string) (c c' u u' : option string) (aspect_ratio : string) :
  given c = given c' ->
  given u = given u' ->
  buildPrompt P title style c u aspect_ratio
  = buildPrompt P title style c' u' aspect_ratio.
Proof.
  intros Hc Hu. rewrite !buildPrompt_segments.
  unfold color_text, details_sentence. now rewrite Hc, Hu.
Qed.

(** A colour scheme that is not a key of the colour table (and not the
    name of an inherited property) does not stop the composer either: the
    prompt asks for [a undefined color scheme]. *)
Theorem unknown_color_composes_undefined
  (title style c : string) (user_prompt : option string) (aspect_ratio : string) :
  own colorSchemeDescriptions c = None ->
  inherited P c = None ->
  c <> "" ->
  buildPrompt P title style (Some c) user_prompt aspect_ratio
  = style_and_title (interpolate (inherited P) stylePrompts style) title
    ++ "Use a undefined color scheme. "
    ++ details_sentence user_prompt
    ++ framing aspect_ratio.
Proof.
  intros Hown Hinh Hne. rewrite buildPrompt_segments.
  unfold color_text, given.
  destruct (String.eqb_spec c "") as [->|_]; [congruence|].
  unfold interpolate. now rewrite Hown, Hinh.
Qed.

(** The single-model controller's prompt, as segments in order. *)
Lemma sdk_buildPrompt_segments (W : SdkController.World) (parse : string -> option JSON)
  (title style : string) (color_scheme user_prompt : option string)
  (aspect_ratio : string) :
  SdkController.buildPrompt W title style color_scheme user_prompt aspect_ratio
  = style_and_title
      (interpolate (SdkController.inherited W) SdkController.stylePrompts style) title
    ++ color_sentence (color_text (mkPlatform parse (SdkController.inherited W)) color_scheme)
    ++ details_sentence user_prompt
    ++ sdk_framing aspect_ratio.
Proof.
  unfold SdkController.buildPrompt, style_and_title, color_sentence, color_text,
    details_sentence, given, sdk_framing, truthy_str.
  destruct color_scheme as [c|]; [destruct (String.eqb c "")|];
    (destruct user_prompt as [u|]; [destruct (String.eqb u "")|]);
    cbn [negb inherited]; rewrite ?append_assoc; cbn [append]; rewrite ?append_assoc;
    reflexivity.
Qed.

(** The two controllers compose the same prompt up to its last sentence:
    on the same input and the same platform they share everything before
    the framing suffix, and each ends with its own. *)
Theorem composers_differ_only_in_framing
  (W : SdkController.World) (parse : string -> option JSON)
  (title style : string) (color_scheme user_prompt : option string)
  (aspect_ratio : string) :
  exists body : string,
    buildPrompt (mkPlatform parse (SdkController.inherited W)) title style color_scheme
      user_prompt aspect_ratio
    = body ++ framing aspect_ratio
    /\ SdkController.buildPrompt W title style color_scheme user_prompt aspect_ratio
       = body ++ sdk_framing aspect_ratio.
Proof.
  exists (style_and_title
            (interpolate (SdkController.inherited W) stylePrompts style) title
          ++ color_sentence
               (color_text (mkPlatform parse (SdkController.inherited W)) color_scheme)
          ++ details_sentence user_prompt).
  split.
  - rewrite buildPrompt_segments, !append_assoc. reflexivity.
  - rewrite (sdk_buildPrompt_segments W parse), !append_assoc. reflexivity.
Qed.

End ComposerCoverage.

Section ComposerCoverageExamples.
Import JS Effects Mongoose Server ThumbnailController PromptSpec Examples.

(** An empty colour scheme and an empty free text. *)
Lemma composer_reads_given_values_witness :
  buildPrompt node "My Video" "Minimalist" (Some "") (Some "") "16:9"
  = buildPrompt node "My Video" "Minimalist" None None "16:9".
Proof.
  apply (@composer_reads_given_values node "My Video" "Minimalist" (Some "") None
           (Some "") None "16:9"); reflexivity.
Defined.

(** The colour scheme [gold] is not in the table. *)
Lemma unknown_color_composes_undefined_witness :
  buildPrompt node "My Video" "Minimalist" (Some "gold") None "16:9"
  = style_and_title (interpolate (inherited node) stylePrompts "Minimalist") "My Video"
    ++ "Use a undefined color scheme. "
    ++ details_sentence None
    ++ framing "16:9".
Proof.
  apply (@unknown_color_composes_undefined node "My Video" "Minimalist" "gold" None
           "16:9"); [reflexivity|reflexivity|discriminate].
Defined.

End ComposerCoverageExamples.


(* ================================================================== *)
(** * More on the delete handler *)
(* ================================================================== *)

Section DeleteCoverage.
Import JS Effects Mongoose Server ThumbnailController.

Variable D : Driver.

Lemma findOneAndDelete_subset (id : string) (coll : list Thumbnail) (t : Thumbnail) :
  In t (snd (findOneAndDelete id coll)) -> In t coll.
Proof.
  induction coll as [|x r IH]; cbn; [tauto|].
  destruct (String.eqb (_id x) id); [now right|].
  destruct (findOneAndDelete id r) as [found r'] eqn:Hr. cbn in *.
  intros [->|Hin]; [now left|right; now apply IH].
Qed.

Lemma findOneAndDelete_keeps (id : string) (coll : list Thumbnail) (t : Thumbnail) :
  In t coll -> _id t <> id -> In t (snd (findOneAndDelete id coll)).
Proof.
  induction coll as [|x r IH]; cbn; [tauto|].
  intros Hin Hne.
  destruct (String.eqb_spec (_id x) id) as [Heq|_].
  - destruct Hin as [->|Hin]; [congruence|exact Hin].
  - destruct (findOneAndDelete id r) as [found r'] eqn:Hr. cbn in *.
    destruct Hin as [->|Hin]; [now left|right; now apply IH].
Qed.

Lemma findOneAndDelete_length (id : string) (coll : list Thumbnail) :
  (length coll <= S (length (snd (findOneAndDelete id coll))))%nat.
Proof.
  induction coll as [|x r IH]; cbn; [lia|].
  destruct (String.eqb (_id x) id); [cbn; lia|].
  destruct (findOneAndDelete id r) as [found r'] eqn:Hr. cbn in *. lia.
Qed.

Lemma findOneAndDelete_absent (id : string) (coll : list Thumbnail) :
  (forall t : Thumbnail, In t coll -> _id t <> id) ->
  findOneAndDelete id coll = (None, coll).
Proof.
  induction coll as [|x r IH]; cbn; [reflexivity|].
  intros Hall.
  destruct (String.eqb_spec (_id x) id) as [Heq|_].
  - exfalso. apply (Hall x); [now left|exact Heq].
  - rewrite IH; [reflexivity|]. intros t Ht. apply Hall. now right.
Qed.

Lemma findOneAndDelete_removes (id : string) (coll : list Thumbnail) :
  NoDup (map _id coll) ->
  forall t : Thumbnail, In t (snd (findOneAndDelete id coll)) -> _id t <> id.
Proof.
  induction coll as [|x r IH]; cbn; [tauto|].
  intros Hnd t. inversion Hnd as [|? ? Hnotin Hnd']; subst.
  destruct (String.eqb_spec (_id x) id) as [Heq|Hne].
  - cbn. intros Hin Ht. apply Hnotin. rewrite Heq, <- Ht. now apply in_map.
  - destruct (findOneAndDelete id r) as [found r'] eqn:Hr. cbn in *.
    intros [<-|Hin]; [exact Hne|now apply IH].
Qed.

(** What the handler does to the collection, whatever the driver. *)
Lemma deleteThumbnail_collection (req : Request) (coll : list Thumbnail) :
  snd (deleteThumbnail D req coll)
  = match fault D (params_id req) with
    | Some _ => coll
    | None => snd (findOneAndDelete (params_id req) coll)
    end.
Proof.
  unfold deleteThumbnail, try_catch, bind, findByIdAndDelete, ret. cbn [castObjectId member].
  cbn. destruct (fault D (params_id req)); [reflexivity|].
  destruct (findOneAndDelete (params_id req) coll); reflexivity.
Qed.

(** The handler deletes at most one record and never one of another id:
    every record of another id is kept, nothing is added, and the
    collection loses one record at most; this for every answer of the
    driver. *)
Theorem delete_keeps_other_records (req : Request) (coll : list Thumbnail) :
  let coll' := snd (deleteThumbnail D req coll) in
  (forall t : Thumbnail, In t coll' -> In t coll)
  /\ (forall t : Thumbnail, In t coll -> _id t <> params_id req -> In t coll')
  /\ (length coll <= S (length coll'))%nat.
Proof.
  cbv zeta. rewrite deleteThumbnail_collection.
  destruct (fault D (params_id req)).
  - split; [auto|]. split; [auto|]. lia.
  - split; [|split].
    + intros t. apply findOneAndDelete_subset.
    + intros t. apply findOneAndDelete_keeps.
    + apply findOneAndDelete_length.
Qed.

(** When the query fails the handler answers 500 with the error's
    message and the collection is as it was. *)
Theorem delete_failure_changes_nothing (req : Request) (coll : list Thumbnail)
  (e : Thrown) :
  fault D (params_id req) = Some e ->
  deleteThumbnail D req coll = (Returned (mkResponse 500 (Message (message e))), coll).
Proof.
  intros Hfault.
  unfold deleteThumbnail, try_catch, bind, findByIdAndDelete, ret. cbn.
  now rewrite Hfault.
Qed.

(** On a collection whose ids are distinct, after a delete that did not
    fail no record of the requested id is left, and a second delete of
    the same id changes nothing and gets the same answer. *)
Theorem delete_is_idempotent (req : Request) (coll : list Thumbnail) :
  NoDup (map _id coll) ->
  fault D (params_id req) = None ->
  (forall t : Thumbnail,
      In t (snd (deleteThumbnail D req coll)) -> _id t <> params_id req)
  /\ deleteThumbnail D req (snd (deleteThumbnail D req coll))
     = deleteThumbnail D req coll.
Proof.
  intros Hnd Hok.
  assert (Hgone : forall t : Thumbnail,
             In t (snd (findOneAndDelete (params_id req) coll)) ->
             _id t <> params_id req).
  { now apply findOneAndDelete_removes. }
  rewrite deleteThumbnail_collection, Hok. split; [exact Hgone|].
  unfold deleteThumbnail, try_catch, bind, findByIdAndDelete, ret. cbn.
  rewrite Hok, (findOneAndDelete_absent _ Hgone).
  destruct (findOneAndDelete (params_id req) coll); reflexivity.
Qed.

(** The sibling's delete handler is the same function. *)
Lemma sdk_deleteThumbnail_same (req : Request) (coll : list Thumbnail) :
  SdkController.deleteThumbnail D req coll = deleteThumbnail D req coll.
Proof. reflexivity. Qed.

(** In the single-model controller too, the requesting user plays no
    part in the delete: two requests for the same id act alike, whoever
    sends them. *)
Theorem sdk_delete_ignores_requesting_user (r1 r2 : Request) (coll : list Thumbnail) :
  params_id r1 = params_id r2 ->
  SdkController.deleteThumbnail D r1 coll = SdkController.deleteThumbnail D r2 coll.
Proof.
  intros Hid.
  unfold SdkController.deleteThumbnail, try_catch, bind, findByIdAndDelete.
  cbn [castObjectId member String.eqb]. cbn. now rewrite Hid.
Qed.

End DeleteCoverage.

Section DeleteCoverageExamples.
Import JS Effects Mongoose Server ThumbnailController Examples.

(** The driver has lost its connection. *)
Lemma delete_failure_changes_nothing_witness :
  deleteThumbnail disconnected bob_deletes_own two_records
  = (Returned (mkResponse 500 (Message (message write_error))), two_records).
Proof.
  apply (@delete_failure_changes_nothing disconnected bob_deletes_own two_records
           write_error).
  reflexivity.
Defined.

(** Bob deletes his record from a collection of two. *)
Lemma delete_is_idempotent_witness :
  (forall t : Thumbnail,
      In t (snd (deleteThumbnail healthy bob_deletes_own two_records)) ->
      _id t <> params_id bob_deletes_own)
  /\ deleteThumbnail healthy bob_deletes_own
       (snd (deleteThumbnail healthy bob_deletes_own two_records))
     = deleteThumbnail healthy bob_deletes_own two_records.
Proof.
  apply (@delete_is_idempotent healthy bob_deletes_own two_records).
  - cbn. repeat constructor; cbn; intuition discriminate.
  - reflexivity.
Defined.

(** Bob's and Alice's requests for Alice's record. *)
Lemma sdk_delete_ignores_requesting_user_witness :
  SdkController.deleteThumbnail healthy bob_deletes_alice two_records
  = SdkController.deleteThumbnail healthy
      (mkRequest "alice" "" None "" "" None false "65f0c0ffee0000000000abcd")
      two_records.
Proof.
  apply (@sdk_delete_ignores_requesting_user healthy bob_deletes_alice
           (mkRequest "alice" "" None "" "" None false "65f0c0ffee0000000000abcd")
           two_records).
  reflexivity.
Defined.

End DeleteCoverageExamples.


(* ================================================================== *)
(** * More on the single-model controller, and the connection *)
(* ================================================================== *)

Section SdkCoverage.
Import JS Effects Mongoose Server.

Variable W : SdkController.World.


End SdkCoverage.

Section SdkCoverageExamples.
Import JS Effects Mongoose Server Examples.

(** The model gives a blob and the services are reliable. *)
Lemma sdk_success_stores_prompt_witness :
  exists s : State,
    SdkController.generateThumbnail sdk_succeeds request initial
    = (Returned
         (mkResponse 200
            (Generated "Thumbnail Generated"
               (SdkController.finalized sdk_succeeds request "65f0c0ffee0000000000abcd"
                  cdn_url))),
       s)
    /\ stored s
       = Some (SdkController.finalized sdk_succeeds request "65f0c0ffee0000000000abcd"
                 cdn_url)
    /\ prompt_used
         (SdkController.finalized sdk_succeeds request "65f0c0ffee0000000000abcd" cdn_url)
       = Some (SdkController.prompt_of sdk_succeeds request).
Proof.
  apply (@sdk_success_stores_prompt sdk_succeeds request "65f0c0ffee0000000000abcd"
           cdn_url (SdkController.Blob png)); reflexivity.
Defined.

End SdkCoverageExamples.

Section DbCoverage.
Import Effects.

Variable W : Db.World.





End DbCoverage.

Section DbCoverageExamples.
Import Effects Examples.


End DbCoverageExamples.
